(** * Bandit command line front end: option resolution and run orchestration

    A shallow embedding of [bandit/cli/main.py].  Python values that flow
    through the option bag are modelled by the dynamic type [pyval]; the
    effects of [main] (logging, environment writes, calls into the scan
    manager, [sys.exit] and raised exceptions) are modelled by a small
    writer/exception monad [M] that records a trace of events. *)

From Stdlib Require Import ZArith Ascii String List Lia.
From stdpp Require Import base option list gmap strings pretty.
Import ListNotations.
Local Open Scope string_scope.
Local Open Scope list_scope.
Local Open Scope Z_scope.

(** ** Python values *)

(** The values an argparse namespace entry, a parser default or an ini
    entry can hold in this program. [PFile] stands for an open file
    object such as [sys.stdout]; it is identified by its name. *)
Inductive pyval : Type :=
| PNone
| PBool (b : bool)
| PInt (n : Z)
| PStr (s : string)
| PList (l : list string)
| PFile (name : string).

Definition int_of_bool (b : bool) : Z := if b then 1 else 0.

(** Python truth value testing ([if v:]). *)
Definition truthy (v : pyval) : bool :=
  match v with
  | PNone => false
  | PBool b => b
  | PInt n => negb (n =? 0)
  | PStr s => negb (bool_decide (s = ""))
  | PList l => negb (bool_decide (l = []))
  | PFile _ => true
  end.

(** Python [==]: [bool] is a subtype of [int], values of unrelated types
    are unequal. *)
Definition py_eq (a b : pyval) : bool :=
  match a, b with
  | PNone, PNone => true
  | PBool x, PBool y => bool_decide (x = y)
  | PBool x, PInt n => int_of_bool x =? n
  | PInt n, PBool y => n =? int_of_bool y
  | PInt n, PInt m => n =? m
  | PStr s, PStr t => bool_decide (s = t)
  | PList l, PList k => bool_decide (l = k)
  | PFile f, PFile g => bool_decide (f = g)
  | _, _ => false
  end.

(** [v is None] *)
Definition is_none (v : pyval) : bool :=
  match v with PNone => true | _ => false end.

(** [a or b] *)
Definition py_or (a b : pyval) : pyval := if truthy a then a else b.

(** ** Strings *)

Definition comma : ascii := ","%char.
Definition nl : string := String "010"%char "".
Definition tab : string := String "009"%char "".

(** [s.split(sep)] for a one-character separator: never returns the empty
    list, [""] splits to [[""]]. *)
Fixpoint split_on (sep : ascii) (s : string) : list string :=
  match s with
  | EmptyString => [""]
  | String c s' =>
      if Ascii.eqb c sep then "" :: split_on sep s'
      else match split_on sep s' with
           | [] => [String c ""]
           | w :: ws => String c w :: ws
           end
  end.

(** [sep.join(l)] *)
Fixpoint join (sep : string) (l : list string) : string :=
  match l with
  | [] => ""
  | [x] => x
  | x :: rest => x +:+ sep +:+ join sep rest
  end.

Definition starts_with_slash (s : string) : bool :=
  match s with String "/"%char _ => true | _ => false end.

Fixpoint ends_with_slash (s : string) : bool :=
  match s with
  | EmptyString => false
  | String c EmptyString => Ascii.eqb c "/"%char
  | String _ s' => ends_with_slash s'
  end.

(** [os.path.join(a, b)] on POSIX. *)
Definition os_path_join (a b : string) : string :=
  if starts_with_slash b then b
  else if bool_decide (a = "") || ends_with_slash a then a +:+ b
  else a +:+ "/" +:+ b.

(** ** Profiles and the persistent configuration *)

(** [{"include": set, "exclude": set}] *)
Record Profile : Type := { include : gset string; exclude : gset string }.

(** The answers of [BanditConfig.get_option] that [main] asks for; [None]
    is an option the configuration does not define. *)
Record BanditConfig : Type := {
  cfg_tests : option (list string);
  cfg_skips : option (list string);
  cfg_profiles : option (gmap string Profile);
  cfg_log_format : option string
}.

(** ** Exceptions, events and the orchestration monad *)

Inductive exn : Type :=
| ConfigError (msg : string)
| ProfileNotFound (config_path profile_name : pyval)
| ValueError (msg : string)
| TypeError
| IndexError
| AttributeError
| UnsupportedOperation.

Inductive loglevel : Type := DEBUG | INFO | WARNING | ERROR.

(** What a logging call is given besides its format string. *)
Inductive logarg : Type :=
| AVal (v : pyval)
| AProfile (p : Profile)
| AExn (e : exn)
| AOpaque (name : string).

(** Everything [main] does that is visible outside of it. [Log] is a
    logging call with a format string, [LogObj] one whose message is an
    object. *)
Inductive event : Type :=
| Log (lvl : loglevel) (fmt : string) (args : list logarg)
| LogObj (lvl : loglevel) (obj : logarg)
| InitLogger (lvl : loglevel) (log_format : option string)
| SetEnv (name value : string)
| PrintUsage
| ParserError (msg : string)
| CreateManager (agg_type debug : pyval) (profile : Profile)
    (verbose quiet ignore_nosec : pyval)
| PopulateBaseline (data : string)
| DiscoverFiles (targets recursive excluded_paths : pyval)
| RunTests
| OutputResults (context_lines : pyval) (sev_level conf_level : string)
    (output_file output_format msg_template : pyval).

(** How a computation ends: normally, by [sys.exit(code)], or by an
    exception that is still propagating. *)
Inductive result (A : Type) : Type :=
| Ret (a : A)
| Exit (code : Z)
| Raise (e : exn).
Arguments Ret {A} a.
Arguments Exit {A} code.
Arguments Raise {A} e.

Definition M (A : Type) : Type := (list event * result A)%type.

Definition trace {A} (m : M A) : list event := fst m.
Definition outcome {A} (m : M A) : result A := snd m.

#[global] Instance M_ret : MRet M := fun A a => ([], Ret a).
#[global] Instance M_bind : MBind M := fun A B f m =>
  match m with
  | (t, Ret a) => let '(t', r) := f a in (t ++ t', r)
  | (t, Exit c) => (t, Exit c)
  | (t, Raise e) => (t, Raise e)
  end.

Definition emit (e : event) : M unit := ([e], Ret tt).
Definition sys_exit {A} (code : Z) : M A := ([], Exit code).
Definition raise {A} (e : exn) : M A := ([], Raise e).

(** [try: body except (utils.ProfileNotFound, ValueError) as e: handler e] *)
Definition try_profile_errors {A} (body : M A) (handler : exn -> M A) : M A :=
  match body with
  | (t, Raise (ProfileNotFound p n)) =>
      let '(t', r) := handler (ProfileNotFound p n) in (t ++ t', r)
  | (t, Raise (ValueError msg)) =>
      let '(t', r) := handler (ValueError msg) in (t ++ t', r)
  | _ => body
  end.

(** ** The option-source resolver *)

Definition _log_option_source (default_val arg_val ini_val : pyval)
    (option_name : string) : M pyval :=
  if is_none default_val then
    if truthy arg_val then
      emit (Log INFO "Using command line arg for %s" [AVal (PStr option_name)]);;
      mret arg_val
    else if truthy ini_val then
      emit (Log INFO "Using ini file for %s" [AVal (PStr option_name)]);;
      mret ini_val
    else mret PNone
  else if py_eq default_val arg_val then
    mret (if truthy ini_val then ini_val else arg_val)
  else mret arg_val.

(** ** Level selectors *)

(** Modelled from the spec: [constants.RANKING], the shared four-tier
    ranking scale UNDEFINED < LOW < MEDIUM < HIGH. *)
Definition RANKING : list string := ["UNDEFINED"; "LOW"; "MEDIUM"; "HIGH"].

(** Python list subscription [l[i]]: negative indices count from the end,
    anything outside [-len, len) raises IndexError. *)
Definition py_index {A} (l : list A) (i : Z) : M A :=
  let len := Z.of_nat (length l) in
  let pos := if i <? 0 then len + i else i in
  if (0 <=? pos) && (pos <? len) then
    match l !! Z.to_nat pos with
    | Some x => mret x
    | None => raise IndexError
    end
  else raise IndexError.

(** [constants.RANKING[level - 1]] *)
Definition ranking_level (level : pyval) : M string :=
  match level with
  | PInt n => py_index RANKING (n - 1)
  | PBool b => py_index RANKING (int_of_bool b - 1)
  | _ => raise TypeError
  end.

(** The integer a value stands for in arithmetic and as a subscript: an
    int, or a bool (a subclass of int); nothing else is one. *)
Definition py_int_value (v : pyval) : option Z :=
  match v with
  | PInt n => Some n
  | PBool b => Some (int_of_bool b)
  | _ => None
  end.

(** argparse's [action="count"]: the destination starts at the default and
    every occurrence of the flag adds one. *)
Definition count_action (default : Z) (reps : nat) : Z :=
  Nat.iter reps Z.succ default.

Inductive Axis : Type := Severity | Confidence.

(** [default=1] of [-l/--level] and of [-i/--confidence]. *)
Definition count_default (a : Axis) : Z :=
  match a with Severity => 1 | Confidence => 1 end.

(** The block of [main] that lets a named level replace the count. *)
Definition level_from_string (level_string level : pyval) : pyval :=
  if negb (is_none level_string) then
    if py_eq level_string (PStr "all") then PInt 1
    else if py_eq level_string (PStr "low") then PInt 2
    else if py_eq level_string (PStr "medium") then PInt 3
    else if py_eq level_string (PStr "high") then PInt 4
    else level
  else level.

(** The two input shapes of one axis; the parser's mutually exclusive
    group admits only one of them on a command line. *)
Inductive LevelSelector : Type :=
| CountFlag (reps : nat)
| LevelString (name : string).

(** What [parse_args] stores for the pair ([severity], [severity_string])
    (likewise for confidence): the count flag has [default=1], the string
    flag has no default. *)
Definition parsed_level (a : Axis) (sel : LevelSelector) : pyval * pyval :=
  match sel with
  | CountFlag reps => (PInt (count_action (count_default a) reps), PNone)
  | LevelString name => (PInt (count_default a), PStr name)
  end.

(** The ordinal [main] works with once the named level is folded in. *)
Definition level_ordinal (a : Axis) (sel : LevelSelector) : pyval :=
  level_from_string (snd (parsed_level a sel)) (fst (parsed_level a sel)).

(** ** Builtins used by [main] *)

(** [repr] of a string free of quotes, backslashes and control
    characters, which is all a test identifier or a path needs. *)
Definition str_repr (s : string) : string := "'" +:+ s +:+ "'".

(** [str(v)]; the name of a [PFile] is its printed form. *)
Definition py_str (v : pyval) : string :=
  match v with
  | PNone => "None"
  | PBool true => "True"
  | PBool false => "False"
  | PInt n => pretty n
  | PStr s => s
  | PList l => "[" +:+ join ", " (map str_repr l) +:+ "]"
  | PFile name => name
  end.

Definition sys_stdout : pyval :=
  PFile "<_io.TextIOWrapper name='<stdout>' mode='w' encoding='utf-8'>".

Fixpoint chars (s : string) : list string :=
  match s with
  | EmptyString => []
  | String c s' => String c "" :: chars s'
  end.

(** [for t in v]: the strings the loop variable takes. *)
Definition py_iter (v : pyval) : M (list string) :=
  match v with
  | PList l => mret l
  | PStr s => mret (chars s)
  | PFile _ => raise UnsupportedOperation
  | _ => raise TypeError
  end.

(** [v.split(",")]: only strings have the method. *)
Definition py_split (v : pyval) : M (list string) :=
  match v with
  | PStr s => mret (split_on comma s)
  | _ => raise AttributeError
  end.

(** [v in names] for a list of strings. *)
Definition py_in (v : pyval) (names : list string) : bool :=
  match v with
  | PStr s => bool_decide (s ∈ names)
  | _ => false
  end.

(** [d.get(key)] on a dictionary of strings. *)
Definition dict_get (d : gmap string string) (key : string) : pyval :=
  match d !! key with
  | Some s => PStr s
  | None => PNone
  end.

Definition of_option_str (o : option string) : pyval :=
  match o with Some s => PStr s | None => PNone end.

(** [fnmatch.filter(filenames, ".bandit")]: the pattern has no wildcard,
    so it selects the names equal to it. *)
Definition fnmatch_filter (filenames : list string) (pat : string) : list string :=
  filter (fun name => name = pat) filenames.

(** What [open(path).read()] gives: the text, an OSError (the only
    exception the baseline block catches), or another exception, such as
    the UnicodeDecodeError, a ValueError, of a file that is not text. *)
Inductive read_result : Type :=
| ReadData (data : string)
| ReadOSError
| ReadRaises (e : exn).

(** ** The collaborators of [main]

    The world outside this module: the file system, the configuration
    loader, the extension registry, the scan manager and the parts of the
    parser that depend on the terminal. *)
Record World : Type := {
  (* [os.walk(t)]: the (root, dirs, filenames) triples under [t] *)
  os_walk : string -> list (string * list string * list string);
  (* [utils.parse_ini_file(path)] *)
  parse_ini_file : pyval -> option (gmap string string);
  (* [int(s)] on a string; [None] is ValueError *)
  int_of_str : string -> option Z;
  (* [b_config.BanditConfig(config_file=...)]; [inl] is ConfigError *)
  load_config : pyval -> string + BanditConfig;
  (* [",".join(constants.EXCLUDE)] *)
  default_excluded_paths : string;
  (* "screen" or "txt", depending on the terminal *)
  default_output_format : string;
  (* names of the formatters with [_accepts_baseline] *)
  baseline_formatters : list string;
  (* [extension_mgr.validate_profile(profile)]; [Some msg] is ValueError *)
  validate_profile : Profile -> option string;
  (* [open(path).read()] *)
  read_file : pyval -> read_result;
  (* whether [logging.Formatter(fmt)] accepts a %-style format: it raises
     ValueError for one that names no %(field)s *)
  formatter_accepts : string -> bool;
  (* whether [b_mgr.b_ts.tests] is non-empty *)
  has_tests : BanditConfig -> Profile -> bool;
  (* [b_mgr.results_count(sev_filter, conf_filter)] after the scan *)
  results_count : string -> string -> Z;
  (* [sys.version_info] major, minor, micro *)
  python_version : Z * Z * Z
}.

(** ** Ini discovery *)

(** The list the three nested loops of [_get_options_from_ini] build. *)
Definition find_bandit_files (w : World) (target : list string) : list string :=
  flat_map (fun t =>
    flat_map (fun '(root, _, filenames) =>
      map (os_path_join root) (fnmatch_filter filenames ".bandit"))
      (os_walk w t)) target.

Definition multiple_ini_message : string :=
  "Multiple .bandit files found - scan separately or " +:+
  "choose one with --ini" +:+ nl +:+ tab +:+ "%s".

Definition _get_options_from_ini (w : World) (ini_path target : pyval)
    : M (option (gmap string string)) :=
  ini_file ←
    (if truthy ini_path then mret ini_path
     else
       ts ← py_iter target;
       let bandit_files := find_bandit_files w ts in
       if (1 <? Z.of_nat (length bandit_files)) then
         emit (Log ERROR multiple_ini_message
                 [AVal (PStr (join ", " bandit_files))]);;
         sys_exit 2
       else if (Z.of_nat (length bandit_files) =? 1) then
         match bandit_files !! 0%nat with
         | Some f =>
             emit (Log INFO "Found project level .bandit file: %s" [AVal (PStr f)]);;
             mret (PStr f)
         | None => raise IndexError
         end
       else mret PNone);
  if truthy ini_file then mret (parse_ini_file w ini_file) else mret None.

(** ** Profile resolution *)

Definition list_or_empty (o : option (list string)) : list string :=
  match o with Some l => l | None => [] end.

Definition _get_profile (config : BanditConfig) (profile_name config_path : pyval)
    : M Profile :=
  if truthy profile_name then
    let profiles : gmap string Profile :=
      match cfg_profiles config with Some ps => ps | None => ∅ end in
    match profile_name with
    | PList _ => raise TypeError
    | _ =>
        match (match profile_name with PStr n => profiles !! n | _ => None end) with
        | None => raise (ProfileNotFound config_path profile_name)
        | Some profile =>
            emit (Log DEBUG "read in legacy profile '%s': %s"
                    [AVal profile_name; AProfile profile]);;
            mret profile
        end
    end
  else
    mret {| include := list_to_set (list_or_empty (cfg_tests config));
            exclude := list_to_set (list_or_empty (cfg_skips config)) |}.

(** [",".join([t for t in s]) or "None"]; the iteration order of a set is
    the order of [elements]. *)
Definition join_set (s : gset string) : string :=
  let joined := join "," (elements s) in
  if bool_decide (joined = "") then "None" else joined.

(** ** The argparse namespace *)

(** One entry per [dest] of the parser.  The entries are dynamic values:
    the ini merge may replace a parsed boolean or number by the string
    found in the ini file. *)
Record Namespace : Type := {
  targets : pyval;
  recursive : pyval;
  agg_type : pyval;
  context_lines : pyval;
  config_file : pyval;
  profile : pyval;
  tests : pyval;
  skips : pyval;
  severity : pyval;
  severity_string : pyval;
  confidence : pyval;
  confidence_string : pyval;
  output_format : pyval;
  msg_template : pyval;
  output_file : pyval;
  verbose : pyval;
  debug : pyval;
  quiet : pyval;
  ignore_nosec : pyval;
  excluded_paths : pyval;
  baseline : pyval;
  ini_path : pyval;
  exit_zero : pyval;
  no_line_numbers : pyval
}.

(** [parser.get_default(dest)] for the destinations the ini merge asks
    about, as the [add_argument] and [set_defaults] calls fix them. *)
Definition default_skips : pyval := PNone.
Definition default_tests : pyval := PNone.
Definition default_targets : pyval := PNone.
Definition default_recursive : pyval := PBool false.
Definition default_agg_type : pyval := PStr "file".
Definition default_context_lines : pyval := PInt 3.
Definition default_profile : pyval := PNone.
Definition default_severity : pyval := PInt (count_default Severity).
Definition default_confidence : pyval := PInt (count_default Confidence).
Definition default_msg_template : pyval := PNone.
Definition default_output_file : pyval := sys_stdout.
Definition default_verbose : pyval := PBool false.
Definition default_debug : pyval := PBool false.
Definition default_quiet : pyval := PBool false.
Definition default_ignore_nosec : pyval := PBool false.
Definition default_baseline : pyval := PNone.
Definition default_no_line_numbers : pyval := PBool false.

(** [int(ini_options.get("number") or 0) or None] *)
Definition ini_number (w : World) (ini_options : gmap string string) : M pyval :=
  n ← match py_or (dict_get ini_options "number") (PInt 0) with
      | PStr s =>
          match int_of_str w s with
          | Some n => mret n
          | None => raise (ValueError "invalid literal for int()")
          end
      | PInt n => mret n
      | _ => raise TypeError
      end;
  mret (py_or (PInt n) PNone).

(** The body of [if ini_options:] in [main]: every option is passed
    through the resolver, in the order of the source, and stored back
    into the namespace. *)
Definition merge_ini_options (w : World) (args : Namespace)
    (ini_options : gmap string string) : M Namespace :=
  excluded_paths' ← _log_option_source (PStr (default_excluded_paths w))
    (excluded_paths args) (dict_get ini_options "exclude") "excluded paths";
  skips' ← _log_option_source default_skips
    (skips args) (dict_get ini_options "skips") "skipped tests";
  tests' ← _log_option_source default_tests
    (tests args) (dict_get ini_options "tests") "selected tests";
  ini_targets ←
    (let ini_targets := dict_get ini_options "targets" in
     if truthy ini_targets then l ← py_split ini_targets; mret (PList l)
     else mret ini_targets);
  targets' ← _log_option_source default_targets
    (targets args) ini_targets "selected targets";
  recursive' ← _log_option_source default_recursive
    (recursive args) (dict_get ini_options "recursive") "recursive scan";
  agg_type' ← _log_option_source default_agg_type
    (agg_type args) (dict_get ini_options "aggregate") "aggregate output type";
  number ← ini_number w ini_options;
  context_lines' ← _log_option_source default_context_lines
    (context_lines args) number "max code lines output for issue";
  profile' ← _log_option_source default_profile
    (profile args) (dict_get ini_options "profile") "profile";
  severity' ← _log_option_source default_severity
    (severity args) (dict_get ini_options "level") "severity level";
  confidence' ← _log_option_source default_confidence
    (confidence args) (dict_get ini_options "confidence") "confidence level";
  output_format' ← _log_option_source (PStr (default_output_format w))
    (output_format args) (dict_get ini_options "format") "output format";
  msg_template' ← _log_option_source default_msg_template
    (msg_template args) (dict_get ini_options "msg-template")
    "output message template";
  output_file' ← _log_option_source default_output_file
    (output_file args) (dict_get ini_options "output") "output file";
  verbose' ← _log_option_source default_verbose
    (verbose args) (dict_get ini_options "verbose") "output extra information";
  debug' ← _log_option_source default_debug
    (debug args) (dict_get ini_options "debug") "debug mode";
  quiet' ← _log_option_source default_quiet
    (quiet args) (dict_get ini_options "quiet") "silent mode";
  ignore_nosec' ← _log_option_source default_ignore_nosec
    (ignore_nosec args) (dict_get ini_options "ignore-nosec")
    "do not skip lines with # nosec";
  baseline' ← _log_option_source default_baseline
    (baseline args) (dict_get ini_options "baseline") "path of a baseline report";
  no_line_numbers' ← _log_option_source default_no_line_numbers
    baseline' (dict_get ini_options "no-line-numbers")
    "do not print code's lines.";
  mret {| targets := targets'; recursive := recursive'; agg_type := agg_type';
          context_lines := context_lines'; config_file := config_file args;
          profile := profile'; tests := tests'; skips := skips';
          severity := severity'; severity_string := severity_string args;
          confidence := confidence'; confidence_string := confidence_string args;
          output_format := output_format'; msg_template := msg_template';
          output_file := output_file'; verbose := verbose'; debug := debug';
          quiet := quiet'; ignore_nosec := ignore_nosec';
          excluded_paths := excluded_paths'; baseline := baseline';
          ini_path := ini_path args; exit_zero := exit_zero args;
          no_line_numbers := no_line_numbers' |}.

(** [_log_info] *)
Definition _log_info (args : Namespace) (p : Profile) : M unit :=
  let inc := join_set (include p) in
  let exc := join_set (exclude p) in
  emit (Log INFO "profile include tests: %s" [AVal (PStr inc)]);;
  emit (Log INFO "profile exclude tests: %s" [AVal (PStr exc)]);;
  emit (Log INFO "cli include tests: %s" [AVal (tests args)]);;
  emit (Log INFO "cli exclude tests: %s" [AVal (skips args)]).

(** The statements between [_log_info] and [validate_profile]: the two
    in-place [set.update] calls. *)
Definition update_profile (args : Namespace) (p : Profile) : M Profile :=
  inc ← (if truthy (tests args) then py_split (tests args) else mret []);
  exc ← (if truthy (skips args) then py_split (skips args) else mret []);
  mret {| include := include p ∪ list_to_set inc;
          exclude := exclude p ∪ list_to_set exc |}.

(** The statements under [try:] in [main]. *)
Definition profile_steps (w : World) (b_conf : BanditConfig) (args : Namespace)
    : M Profile :=
  p ← _get_profile b_conf (profile args) (config_file args);
  _log_info args p;;
  p' ← update_profile args p;
  match validate_profile w p' with
  | Some msg => raise (ValueError msg)
  | None => mret p'
  end.

(** The [try] block of [main] with its handler. *)
Definition resolve_profile (w : World) (b_conf : BanditConfig) (args : Namespace)
    : M Profile :=
  try_profile_errors (profile_steps w b_conf args)
    (fun e => emit (LogObj ERROR (AExn e));; sys_exit 2).

(** ** [main], from the result of [parser.parse_args()] on

    [main] is one function in the source; it is split here at the point
    where the options are resolved. *)

(** The baseline block: read the report, hand it to the manager, then
    require a baseline-capable formatter. *)
Definition check_baseline (w : World) (args : Namespace) : M unit :=
  if negb (is_none (baseline args)) then
    match read_file w (baseline args) with
    | ReadData data => emit (PopulateBaseline data)
    | ReadOSError =>
        emit (Log WARNING "Could not open baseline report: %s"
                [AVal (baseline args)]);;
        sys_exit 2
    | ReadRaises e => raise e
    end;;
    if negb (py_in (output_format args) (baseline_formatters w)) then
      emit (Log WARNING
              ("Baseline must be used with one of the following formats: " +:+
               py_str (PList (baseline_formatters w))) []);;
      sys_exit 2
    else mret tt
  else mret tt.

(** The informational lines that are kept out of JSON output. *)
Definition log_run_info (w : World) (args : Namespace) : M unit :=
  if negb (py_eq (output_format args) (PStr "json")) then
    (if truthy (config_file args) then
       emit (Log INFO "using config: %s" [AVal (config_file args)])
     else mret tt);;
    let '(major, minor, micro) := python_version w in
    emit (Log INFO "running on Python %d.%d.%d"
            [AVal (PInt major); AVal (PInt minor); AVal (PInt micro)])
  else mret tt.

(** The first half of [main]: from the parsed namespace to the resolved
    one, together with the loaded configuration. *)
Definition configure (w : World) (parsed : Namespace)
    : M (BanditConfig * Namespace) :=
  (* --msg-template needs the custom formatter *)
  (if negb (py_eq (output_format parsed) (PStr "custom"))
      && negb (is_none (msg_template parsed)) then
     emit (ParserError "--msg-template can only be used with --format=custom");;
     sys_exit 2
   else mret tt);;
  (* named levels replace the counts *)
  let severity0 := level_from_string (severity_string parsed) (severity parsed) in
  let confidence0 :=
    level_from_string (confidence_string parsed) (confidence parsed) in
  (if negb (is_none (no_line_numbers parsed)) then
     emit (SetEnv "BANDIT_NO_LINES" (py_str (no_line_numbers parsed)))
   else mret tt);;
  b_conf ← match load_config w (config_file parsed) with
           | inr conf => mret conf
           | inl msg => emit (LogObj ERROR (AExn (ConfigError msg)));; sys_exit 2
           end;
  let args0 :=
    {| targets := targets parsed; recursive := recursive parsed;
       agg_type := agg_type parsed; context_lines := context_lines parsed;
       config_file := config_file parsed; profile := profile parsed;
       tests := tests parsed; skips := skips parsed;
       severity := severity0; severity_string := severity_string parsed;
       confidence := confidence0; confidence_string := confidence_string parsed;
       output_format := output_format parsed; msg_template := msg_template parsed;
       output_file := output_file parsed; verbose := verbose parsed;
       debug := debug parsed; quiet := quiet parsed;
       ignore_nosec := ignore_nosec parsed;
       excluded_paths := excluded_paths parsed; baseline := baseline parsed;
       ini_path := ini_path parsed; exit_zero := exit_zero parsed;
       no_line_numbers := no_line_numbers parsed |} in
  (* options from a project's .bandit file *)
  ini_options ← _get_options_from_ini w (ini_path args0) (targets args0);
  args ← match ini_options with
         | Some opts =>
             if bool_decide (opts = ∅) then mret args0
             else merge_ini_options w args0 opts
         | None => mret args0
         end;
  mret (b_conf, args).

(** Whether [_init_logger] is stopped by its formatter: a format that is
    given and not empty is handed to [logging.Formatter], which may refuse
    it; without one the constant of [constants] is used. *)
Definition formatter_rejects (accepts : string -> bool)
    (log_format : option string) : bool :=
  match log_format with
  | Some f => negb (bool_decide (f = "")) && negb (accepts f)
  | None => false
  end.

(** A call of [_init_logger] from [main]: the call is recorded, and the
    ValueError of a refused format is not caught by anyone. *)
Definition init_logger_call (w : World) (log_level : loglevel)
    (log_format : option string) : M unit :=
  emit (InitLogger log_level log_format);;
  if formatter_rejects (formatter_accepts w) log_format
  then raise (ValueError "Invalid format for '%' style")
  else mret tt.

(** The second half of [main]: from the resolved options to the exit. *)
Definition run (w : World) (b_conf : BanditConfig) (args : Namespace) : M unit :=
  (if negb (truthy (targets args)) then emit PrintUsage;; sys_exit 2
   else mret tt);;
  (if truthy (of_option_str (cfg_log_format b_conf)) then
     init_logger_call w DEBUG (cfg_log_format b_conf)
   else mret tt);;
  (if truthy (quiet args) then init_logger_call w WARNING None else mret tt);;
  profile ← resolve_profile w b_conf args;
  emit (CreateManager (agg_type args) (debug args) profile
          (verbose args) (quiet args) (ignore_nosec args));;
  check_baseline w args;;
  log_run_info w args;;
  (* file discovery *)
  emit (DiscoverFiles (targets args) (recursive args) (excluded_paths args));;
  (if negb (has_tests w b_conf profile) then
     emit (Log ERROR "No tests would be run, please check the profile." []);;
     sys_exit 2
   else mret tt);;
  (* execution of the tests *)
  emit RunTests;;
  emit (LogObj DEBUG (AOpaque "b_mgr.b_ma"));;
  emit (LogObj DEBUG (AOpaque "b_mgr.metrics"));;
  (* output of the results *)
  sev_level ← ranking_level (severity args);
  conf_level ← ranking_level (confidence args);
  emit (OutputResults (context_lines args) sev_level conf_level
          (output_file args) (output_format args) (msg_template args));;
  if (0 <? results_count w sev_level conf_level) && negb (truthy (exit_zero args))
  then sys_exit 1
  else sys_exit 0.

Definition main (w : World) (parsed : Namespace) : M unit :=
  '(b_conf, args) ← configure w parsed;
  run w b_conf args.

(** ** A concrete project

    A small world to run the model in: the directory [proj] holds a
    [.bandit] file, so does [vendor/pkg], and [lib] holds none. *)

Definition demo_config : BanditConfig :=
  {| cfg_tests := Some ["B201"]; cfg_skips := None;
     cfg_profiles := None; cfg_log_format := None |}.

Definition demo_world : World := {|
  os_walk := fun t =>
    if bool_decide (t = "proj") then
      [("proj", ["sub"], ["a.py"; ".bandit"]); ("proj/sub", [], ["b.py"])]
    else if bool_decide (t = "vendor") then
      [("vendor", ["pkg"], []); ("vendor/pkg", [], [".bandit"; "c.py"])]
    else if bool_decide (t = "lib") then [("lib", [], ["d.py"])]
    else [];
  parse_ini_file := fun path =>
    if py_eq path (PStr "proj/.bandit") then
      Some {[ "no-line-numbers" := "1" ]}
    else None;
  int_of_str := fun _ => None;
  load_config := fun _ => inr demo_config;
  default_excluded_paths := ".svn,CVS,.bzr,.hg,.git";
  default_output_format := "txt";
  baseline_formatters := ["html"; "json"];
  validate_profile := fun _ => None;
  read_file := fun path =>
    if py_eq path (PStr "base.json") then ReadData "{}"
    else if py_eq path (PStr "logo.png") then
      ReadRaises (ValueError "'utf-8' codec can't decode byte 0x89")
    else ReadOSError;
  formatter_accepts := fun f => negb (bool_decide (f = "plain text"));
  has_tests := fun _ _ => true;
  results_count := fun _ _ => 2;
  python_version := (3, 11, 4)
|}.

(** [bandit -r -t B101,B102 -s B103 <targets>] with an optional
    baseline, as [parse_args] returns it. *)
Definition demo_args (target : list string) (bl : pyval) : Namespace := {|
  targets := PList target; recursive := PBool true;
  agg_type := PStr "file"; context_lines := PInt 3;
  config_file := PNone; profile := PNone;
  tests := PStr "B101,B102"; skips := PStr "B103";
  severity := PInt 1; severity_string := PNone;
  confidence := PInt 1; confidence_string := PNone;
  output_format := PStr "txt"; msg_template := PNone;
  output_file := sys_stdout; verbose := PBool false;
  debug := PBool false; quiet := PBool false; ignore_nosec := PBool false;
  excluded_paths := PStr ".svn,CVS,.bzr,.hg,.git";
  baseline := bl; ini_path := PNone; exit_zero := PBool false;
  no_line_numbers := PBool false
|}.

(** The namespace [parse_args] returns when [-no value] is added to, or
    removed from, the command line. *)
Definition with_no_line_numbers (v : pyval) (args : Namespace) : Namespace :=
  {| targets := targets args; recursive := recursive args;
     agg_type := agg_type args; context_lines := context_lines args;
     config_file := config_file args; profile := profile args;
     tests := tests args; skips := skips args;
     severity := severity args; severity_string := severity_string args;
     confidence := confidence args; confidence_string := confidence_string args;
     output_format := output_format args; msg_template := msg_template args;
     output_file := output_file args; verbose := verbose args;
     debug := debug args; quiet := quiet args;
     ignore_nosec := ignore_nosec args;
     excluded_paths := excluded_paths args; baseline := baseline args;
     ini_path := ini_path args; exit_zero := exit_zero args;
     no_line_numbers := v |}.

(** ** Statements of the specification that the code does not satisfy

    Each is written out as the specification words it, to be refuted at a
    concrete input. *)

(** "If the supplied value differs from the default, the resolved value is
    the supplied value; if it equals the default and an ini value is
    present, the resolved value is the ini value; if it equals the default
    and no ini value is present, the resolved value equals the default." *)
Definition defaulted_resolution_as_stated : Prop :=
  forall (default_val arg_val ini_val : pyval) (name : string),
    is_none default_val = false ->
    let resolved := outcome (_log_option_source default_val arg_val ini_val name) in
    (py_eq default_val arg_val = false -> resolved = Ret arg_val) /\
    (py_eq default_val arg_val = true -> is_none ini_val = false ->
       resolved = Ret ini_val) /\
    (py_eq default_val arg_val = true -> is_none ini_val = true ->
       exists v, resolved = Ret v /\ py_eq default_val v = true).

(** "The named level high and four repetitions of the count flag give the
    identical ordinal and the identical ranking label." *)
Definition high_equals_four_repetitions_as_stated (a : Axis) : Prop :=
  level_ordinal a (LevelString "high") = level_ordinal a (CountFlag 4) /\
  ranking_level (level_ordinal a (LevelString "high")) =
  ranking_level (level_ordinal a (CountFlag 4)).

(** "For every number of repetitions the ordinal lies between 1 and 4 and
    the lookup in the ranking scale is in bounds." *)
Definition count_ordinal_in_range_as_stated : Prop :=
  forall (a : Axis) (reps : nat),
    exists n, level_ordinal a (CountFlag reps) = PInt n /\ 1 <= n <= 4 /\
      exists label, outcome (ranking_level (PInt n)) = Ret label.

(** ** Classes of events *)

(** The calls into the scan manager: construction, baseline, discovery,
    execution and report. *)
Definition manager_call (e : event) : bool :=
  match e with
  | CreateManager _ _ _ _ _ _ | PopulateBaseline _ | DiscoverFiles _ _ _
  | RunTests | OutputResults _ _ _ _ _ _ => true
  | _ => false
  end.

Definition is_discovery (e : event) : bool :=
  match e with DiscoverFiles _ _ _ => true | _ => false end.

Definition is_execution (e : event) : bool :=
  match e with RunTests => true | _ => false end.

Definition is_report (e : event) : bool :=
  match e with OutputResults _ _ _ _ _ _ => true | _ => false end.

Definition is_setenv (e : event) : bool :=
  match e with SetEnv _ _ => true | _ => false end.

(** [quiet_on P m]: no event of the computation is in the class [P]. *)
Definition quiet_on {A} (P : event -> bool) (m : M A) : Prop :=
  Forall (fun e => P e = false) (trace m).



(** A value that is a string or None, as argparse stores for [--tests],
    [--skip] and [--profile] and as the ini merge keeps it. *)
Definition str_or_none (v : pyval) : bool :=
  match v with PNone | PStr _ => true | _ => false end.

(** The events of the scan proper: discovery, execution, report. *)
Definition scan_event (e : event) : bool :=
  is_discovery e || is_execution e || is_report e.


(** ** Further definitions for the properties of the second part *)

(** [choices=["all", "low", "medium", "high"]] of [--severity-level] and
    [--confidence-level]. *)
Definition level_choices : list string := ["all"; "low"; "medium"; "high"].

(** The value component of a resolver call. *)
Definition resolved (default_val arg_val ini_val : pyval) (name : string) : result pyval :=
  outcome (_log_option_source default_val arg_val ini_val name).

(** The namespace as [main] has it just before it looks for an ini file:
    the parsed one with the named levels folded into the ordinals. *)
Definition fold_levels (parsed : Namespace) : Namespace :=
  {| targets := targets parsed; recursive := recursive parsed;
     agg_type := agg_type parsed; context_lines := context_lines parsed;
     config_file := config_file parsed; profile := profile parsed;
     tests := tests parsed; skips := skips parsed;
     severity := level_from_string (severity_string parsed) (severity parsed);
     severity_string := severity_string parsed;
     confidence :=
       level_from_string (confidence_string parsed) (confidence parsed);
     confidence_string := confidence_string parsed;
     output_format := output_format parsed; msg_template := msg_template parsed;
     output_file := output_file parsed; verbose := verbose parsed;
     debug := debug parsed; quiet := quiet parsed;
     ignore_nosec := ignore_nosec parsed;
     excluded_paths := excluded_paths parsed; baseline := baseline parsed;
     ini_path := ini_path parsed; exit_zero := exit_zero parsed;
     no_line_numbers := no_line_numbers parsed |}.

(** The condition under which [main] calls [parser.error]. *)
Definition template_without_custom (parsed : Namespace) : bool :=
  negb (py_eq (output_format parsed) (PStr "custom"))
  && negb (is_none (msg_template parsed)).

(** [exits_only S m]: if [m] ends by [sys.exit(c)] then [S c]. *)
Definition exits_only {A} (S : Z -> Prop) (m : M A) : Prop :=
  forall c, outcome m = Exit c -> S c.

(** The calls of the scan proper that a trace holds, in order. *)
Definition scan_events {A} (m : M A) : list event :=
  filter (fun e => scan_event e = true) (trace m).

(** A list of scan calls that is an initial part of: discovery,
    execution, report. *)
Definition scan_in_order (l : list event) : bool :=
  match l with
  | [] => true
  | [d] => is_discovery d
  | [d; r] => is_discovery d && is_execution r
  | [d; r; o] => is_discovery d && is_execution r && is_report o
  | _ => false
  end.

(** All three of them. *)
Definition scan_complete (l : list event) : bool :=
  match l with
  | [d; r; o] => is_discovery d && is_execution r && is_report o
  | _ => false
  end.

(** How a run may end, given the scan calls it made: never by falling off
    the end; by exit 2 at any point before the report; by exit 0 or 1 only
    with the scan complete. *)
Definition run_ending {A} (l : list event) (r : result A) : Prop :=
  scan_in_order l = true /\
  match r with
  | Ret _ => False
  | Exit c => (c = 2 /\ scan_complete l = false)
              \/ ((c = 0 \/ c = 1) /\ scan_complete l = true)
  | Raise _ => True
  end.

(** [shape Q m]: [Q] holds of the scan calls and the outcome of [m]. *)
Definition shape {A} (Q : list event -> result A -> Prop) (m : M A) : Prop :=
  Q (scan_events m) (outcome m).

(** The profile mapping [_get_profile] looks a name up in:
    [config.get_option("profiles") or {}]. *)
Definition profiles_of (config : BanditConfig) : gmap string Profile :=
  match cfg_profiles config with Some ps => ps | None => ∅ end.

Definition is_baseline_call (e : event) : bool :=
  match e with PopulateBaseline _ => true | _ => false end.

(** The logger reinitialisations at the head of the second half of
    [main]. *)
Definition logger_setup (b_conf : BanditConfig) (args : Namespace) : list event :=
  (if truthy (of_option_str (cfg_log_format b_conf))
   then [InitLogger DEBUG (cfg_log_format b_conf)] else [])
  ++ (if truthy (quiet args) then [InitLogger WARNING None] else []).

(** The namespace [parse_args] returns when [--exit-zero] is added to the
    command line. *)
Definition with_exit_zero (args : Namespace) : Namespace :=
  {| targets := targets args; recursive := recursive args;
     agg_type := agg_type args; context_lines := context_lines args;
     config_file := config_file args; profile := profile args;
     tests := tests args; skips := skips args;
     severity := severity args; severity_string := severity_string args;
     confidence := confidence args; confidence_string := confidence_string args;
     output_format := output_format args; msg_template := msg_template args;
     output_file := output_file args; verbose := verbose args;
     debug := debug args; quiet := quiet args;
     ignore_nosec := ignore_nosec args;
     excluded_paths := excluded_paths args; baseline := baseline args;
     ini_path := ini_path args; exit_zero := PBool true;
     no_line_numbers := no_line_numbers args |}.

(** The namespace [parse_args] returns when [-p name] is added to the
    command line. *)
Definition with_profile (v : pyval) (args : Namespace) : Namespace :=
  {| targets := targets args; recursive := recursive args;
     agg_type := agg_type args; context_lines := context_lines args;
     config_file := config_file args; profile := v;
     tests := tests args; skips := skips args;
     severity := severity args; severity_string := severity_string args;
     confidence := confidence args; confidence_string := confidence_string args;
     output_format := output_format args; msg_template := msg_template args;
     output_file := output_file args; verbose := verbose args;
     debug := debug args; quiet := quiet args;
     ignore_nosec := ignore_nosec args;
     excluded_paths := excluded_paths args; baseline := baseline args;
     ini_path := ini_path args; exit_zero := exit_zero args;
     no_line_numbers := no_line_numbers args |}.

(** ** The logger and its initialisation *)

#[global] Instance loglevel_eq_dec : EqDecision loglevel.
Proof. solve_decision. Defined.

(** A stream handler with its formatter's format string. *)
Record Handler : Type := { h_stream : string; h_format : string }.

(** The root logger [LOG]: its handlers, its level, whether warnings are
    captured, and the records its handlers have written so far. *)
Record Logger : Type := {
  lg_handlers : list Handler;
  lg_level : loglevel;
  lg_capture_warnings : bool;
  lg_written : list (Handler * string)
}.

(** [logging.DEBUG], [INFO], [WARNING], [ERROR] *)
Definition level_no (l : loglevel) : Z :=
  match l with DEBUG => 10 | INFO => 20 | WARNING => 30 | ERROR => 40 end.

(** [LOG.log(lvl, msg)]: dropped below the logger's level, otherwise
    written once by every handler. *)
Definition logger_log (lvl : loglevel) (msg : string) (LOG : Logger) : Logger :=
  if level_no (lg_level LOG) <=? level_no lvl then
    {| lg_handlers := lg_handlers LOG; lg_level := lg_level LOG;
       lg_capture_warnings := lg_capture_warnings LOG;
       lg_written := lg_written LOG ++ map (fun h => (h, msg)) (lg_handlers LOG) |}
  else LOG.

(** [_init_logger]: the logger it leaves behind and how the call ends.
    [default_format] is [constants.log_format_string], a format the
    formatter takes; [accepts] is the validation [logging.Formatter]
    applies to a format the caller supplies.  A refused format raises
    ValueError after the handlers were dropped and the level set, and
    before the new handler is added. *)
Definition _init_logger (accepts : string -> bool) (default_format : string)
    (log_level : loglevel) (log_format : option string) (LOG : Logger)
    : Logger * result unit :=
  (* LOG.handlers = [] *)
  let LOG1 := {| lg_handlers := []; lg_level := lg_level LOG;
                 lg_capture_warnings := lg_capture_warnings LOG;
                 lg_written := lg_written LOG |} in
  let log_format_string :=
    if negb (truthy (of_option_str log_format)) then default_format
    else match log_format with Some f => f | None => default_format end in
  (* logging.captureWarnings(True) *)
  let LOG2 := {| lg_handlers := lg_handlers LOG1; lg_level := lg_level LOG1;
                 lg_capture_warnings := true;
                 lg_written := lg_written LOG1 |} in
  (* LOG.setLevel(log_level) *)
  let LOG3 := {| lg_handlers := lg_handlers LOG2; lg_level := log_level;
                 lg_capture_warnings := lg_capture_warnings LOG2;
                 lg_written := lg_written LOG2 |} in
  (* handler.setFormatter(logging.Formatter(log_format_string)) *)
  if formatter_rejects accepts log_format
  then (LOG3, Raise (ValueError "Invalid format for '%' style"))
  else
    let handler := {| h_stream := "stderr"; h_format := log_format_string |} in
    (* LOG.addHandler(handler): a new object is never in the list yet *)
    let LOG4 := {| lg_handlers := lg_handlers LOG3 ++ [handler];
                   lg_level := lg_level LOG3;
                   lg_capture_warnings := lg_capture_warnings LOG3;
                   lg_written := lg_written LOG3 |} in
    (logger_log DEBUG "logging initialized" LOG4, Ret tt).

(** The level of the first [_init_logger] call of [main], decided from the
    raw command line. *)
Definition early_log_level (argv : list string) : loglevel :=
  if bool_decide ("-d" ∈ argv) || bool_decide ("--debug" ∈ argv)
  then DEBUG else INFO.

(** The handler [_init_logger] installs for a requested format. *)
Definition handler_for (default_format : string) (log_format : option string)
    : Handler :=
  {| h_stream := "stderr";
     h_format := match log_format with
                 | Some f => if bool_decide (f = "") then default_format else f
                 | None => default_format
                 end |}.

Definition is_initlogger (e : event) : bool :=
  match e with InitLogger _ _ => true | _ => false end.

(** The logger after the reinitialisations a trace records; the other
    logging calls change neither handlers nor level. *)
Definition reinitialise (accepts : string -> bool) (default_format : string)
    (LOG : Logger) (e : event) : Logger :=
  match e with
  | InitLogger lvl log_format =>
      (_init_logger accepts default_format lvl log_format LOG).1
  | _ => LOG
  end.

Definition logger_config_after (accepts : string -> bool)
    (default_format : string) (t : list event) (LOG : Logger)
    : list Handler * loglevel :=
  let LOG' := fold_left (reinitialise accepts default_format) t LOG in
  (lg_handlers LOG', lg_level LOG').

(** ** Virtualenv detection *)

(** The attributes of [sys] that [_running_under_virtualenv] reads; [None]
    is an attribute the interpreter does not have. *)
Record SysPrefixes : Type := {
  real_prefix : option string;
  prefix : string;
  base_prefix : option string
}.

Definition _running_under_virtualenv (sys : SysPrefixes) : pyval :=
  if bool_decide (is_Some (real_prefix sys)) then PBool true
  else if negb (bool_decide
                  (prefix sys =
                   match base_prefix sys with Some b => b | None => prefix sys end))
       then PBool true
       else PNone.

(** The test identifiers a resolved [--tests] or [--skip] value adds:
    [v.split(",") if v else []] for a string or None. *)
Definition cli_ids (v : pyval) : list string :=
  match v with
  | PStr s => if bool_decide (s = "") then [] else split_on comma s
  | _ => []
  end.

(** A configuration with a log format and one named profile, and a quiet
    run against it. *)
Definition demo_config_profiles : BanditConfig :=
  {| cfg_tests := Some ["B201"]; cfg_skips := Some ["B301"];
     cfg_profiles :=
       Some {[ "strict" := {| include := {[ "B602" ]}; exclude := ∅ |} ]};
     cfg_log_format := Some "%(levelname)s %(message)s" |}.

Definition demo_quiet_args : Namespace := {|
  targets := PList ["lib"]; recursive := PBool true;
  agg_type := PStr "file"; context_lines := PInt 3;
  config_file := PStr "bandit.yaml"; profile := PStr "strict";
  tests := PStr "B101"; skips := PNone;
  severity := PInt 1; severity_string := PNone;
  confidence := PInt 1; confidence_string := PNone;
  output_format := PStr "txt"; msg_template := PNone;
  output_file := sys_stdout; verbose := PBool false;
  debug := PBool false; quiet := PBool true; ignore_nosec := PBool false;
  excluded_paths := PStr ""; baseline := PNone; ini_path := PNone;
  exit_zero := PBool false; no_line_numbers := PBool false
|}.

(** The configured log format, if any, is one [logging.Formatter]
    accepts, so the reinitialisation of the logger does not raise. *)
Definition log_format_ok (w : World) (b_conf : BanditConfig) : bool :=
  negb (formatter_rejects (formatter_accepts w) (cfg_log_format b_conf)).


(** * Properties *)

(** ** The monad *)

Section Monad.
Context {A B : Type}.
Implicit Types (m : M A) (f : A -> M B).

Lemma trace_bind m f :
  trace (m ≫= f) =
  trace m ++ match outcome m with Ret a => trace (f a) | _ => [] end.
Proof.
  destruct m as [t [a|c|e]]; unfold mbind, M_bind, trace, outcome; simpl.
  - by destruct (f a).
  - by rewrite app_nil_r.
  - by rewrite app_nil_r.
Qed.

Lemma outcome_bind m f :
  outcome (m ≫= f) =
  match outcome m with
  | Ret a => outcome (f a)
  | Exit c => Exit c
  | Raise e => Raise e
  end.
Proof.
  destruct m as [t [a|c|e]]; unfold mbind, M_bind, outcome; simpl; try done.
  by destruct (f a).
Qed.

Lemma outcome_bind_Ret m f b :
  outcome (m ≫= f) = Ret b ->
  exists a, outcome m = Ret a /\ outcome (f a) = Ret b.
Proof.
  rewrite outcome_bind. destruct (outcome m) as [a|c|e]; [eauto | done | done].
Qed.
End Monad.

Lemma outcome_mret {A} (a : A) : outcome (mret a : M A) = Ret a.
Proof. done. Qed.

Lemma trace_mret {A} (a : A) : trace (mret a : M A) = [].
Proof. done. Qed.

(** ** The option-source resolver *)

(** The resolver never stops the run: it always returns a value. *)
Lemma _log_option_source_returns d a i n :
  outcome (_log_option_source d a i n) =
  Ret (if is_none d then
         if truthy a then a else if truthy i then i else PNone
       else if py_eq d a then (if truthy i then i else a) else a).
Proof.
  unfold _log_option_source.
  destruct (is_none d); [destruct (truthy a); [done|destruct (truthy i); done]|].
  by destruct (py_eq d a).
Qed.

(** C2, as amended: for a defaulted option (non-null default), a supplied
    value that differs from the default is the resolved value whatever the
    ini value is; when the supplied value equals the default, the ini value
    is the resolved value if it is truthy (present and non-empty), and
    otherwise (absent, or present but empty or zero) the resolved value is
    the supplied value, which equals the default. *)
Theorem resolver_defaulted (default_val arg_val ini_val : pyval) (name : string)
    (Hdefault : is_none default_val = false) :
  let resolved := outcome (_log_option_source default_val arg_val ini_val name) in
  (py_eq default_val arg_val = false -> resolved = Ret arg_val) /\
  (py_eq default_val arg_val = true -> truthy ini_val = true ->
     resolved = Ret ini_val) /\
  (py_eq default_val arg_val = true -> truthy ini_val = false ->
     resolved = Ret arg_val).
Proof.
  cbn zeta. rewrite _log_option_source_returns, Hdefault.
  repeat split; intros; by repeat match goal with H : _ = _ |- _ => rewrite H end.
Qed.

Lemma resolver_defaulted_witness :
  outcome (_log_option_source (PStr "file") (PStr "vuln") (PStr "file") "a")
    = Ret (PStr "vuln") /\
  outcome (_log_option_source (PInt 3) (PInt 3) (PInt 5) "n") = Ret (PInt 5) /\
  outcome (_log_option_source (PInt 3) (PInt 3) PNone "n") = Ret (PInt 3).
Proof.
  split; [|split].
  - apply (proj1 (resolver_defaulted
                    (PStr "file") (PStr "vuln") (PStr "file") "a" eq_refl)).
    reflexivity.
  - apply (proj1 (proj2 (resolver_defaulted
                           (PInt 3) (PInt 3) (PInt 5) "n" eq_refl)));
      reflexivity.
  - apply (proj2 (proj2 (resolver_defaulted
                           (PInt 3) (PInt 3) PNone "n" eq_refl)));
      reflexivity.
Defined.

(** C2 fails as stated: with default "file", supplied "file" and an ini
    entry that is present but empty, the resolved value is the supplied
    value, not the ini value. *)
Lemma empty_ini_value_ignored :
  is_none (PStr "file") = false /\
  py_eq (PStr "file") (PStr "file") = true /\
  is_none (PStr "") = false /\
  _log_option_source (PStr "file") (PStr "file") (PStr "") "aggregate output type"
    = ([], Ret (PStr "file")) /\
  ~ defaulted_resolution_as_stated.
Proof.
  repeat split. intros H.
  specialize (H (PStr "file") (PStr "file") (PStr "") "aggregate output type").
  destruct H as (_ & H & _); [done|]. by specialize (H eq_refl eq_refl).
Qed.

(** C3: for a defaultless option (null default) the resolved value is the
    supplied value if that is truthy, otherwise the ini value if that is
    truthy, otherwise None. *)
Theorem resolver_defaultless (arg_val ini_val : pyval) (name : string) :
  let resolved := outcome (_log_option_source PNone arg_val ini_val name) in
  (truthy arg_val = true -> resolved = Ret arg_val) /\
  (truthy arg_val = false -> truthy ini_val = true -> resolved = Ret ini_val) /\
  (truthy arg_val = false -> truthy ini_val = false -> resolved = Ret PNone).
Proof.
  cbn zeta. rewrite _log_option_source_returns. cbn [is_none].
  repeat split; intros; by repeat match goal with H : _ = _ |- _ => rewrite H end.
Qed.

Lemma resolver_defaultless_witness :
  outcome (_log_option_source PNone (PStr "B101") (PStr "B301") "selected tests")
    = Ret (PStr "B101") /\
  outcome (_log_option_source PNone PNone (PStr "B301") "selected tests")
    = Ret (PStr "B301") /\
  outcome (_log_option_source PNone (PStr "") PNone "selected tests") = Ret PNone.
Proof.
  split; [|split].
  - apply (proj1 (resolver_defaultless (PStr "B101") (PStr "B301") _)).
    reflexivity.
  - apply (proj1 (proj2 (resolver_defaultless PNone (PStr "B301") _)));
      reflexivity.
  - apply (proj2 (proj2 (resolver_defaultless (PStr "") PNone _)));
      reflexivity.
Defined.

(** ** Level selectors *)

Lemma count_action_add (d : Z) (reps : nat) :
  count_action d reps = d + Z.of_nat reps.
Proof.
  unfold count_action. induction reps as [|n IH]; [simpl; lia|].
  rewrite Nat.iter_succ, IH. lia.
Qed.

Lemma level_ordinal_count (a : Axis) (reps : nat) :
  level_ordinal a (CountFlag reps) = PInt (1 + Z.of_nat reps).
Proof.
  unfold level_ordinal, parsed_level. cbn [fst snd level_from_string is_none negb].
  rewrite count_action_add. by destruct a.
Qed.

Lemma ranking_level_in_range (n : Z) :
  1 <= n <= 4 -> exists label, ranking_level (PInt n) = ([], Ret label).
Proof.
  intros Hn. assert (n = 1 \/ n = 2 \/ n = 3 \/ n = 4) as Hcases by lia.
  destruct Hcases as [-> | [-> | [-> | ->]]]; eexists; reflexivity.
Qed.

Lemma ranking_level_above (n : Z) :
  4 < n -> ranking_level (PInt n) = ([], Raise IndexError).
Proof.
  intros Hn. unfold ranking_level, py_index. cbn [RANKING length].
  destruct (Z.ltb_spec (n - 1) 0); [lia|].
  destruct (Z.ltb_spec (n - 1) (Z.of_nat 4)); [lia|].
  by rewrite andb_false_r.
Qed.

(** C5, as amended: the named level "high" and three repetitions of the
    count flag (each repetition adds one to the flag's default of 1) give
    the same ordinal, 4, and hence the same ranking label, HIGH, on the
    severity axis and on the confidence axis. *)
Theorem high_equals_three_repetitions (a : Axis) :
  level_ordinal a (LevelString "high") = PInt 4 /\
  level_ordinal a (CountFlag 3) = PInt 4 /\
  ranking_level (level_ordinal a (LevelString "high")) = ([], Ret "HIGH") /\
  ranking_level (level_ordinal a (CountFlag 3)) = ([], Ret "HIGH").
Proof. by destruct a. Qed.

(** C5 fails as stated: four repetitions of [-l] give the ordinal 5, not
    the 4 of "high", and the lookup of the label then raises IndexError. *)
Lemma four_repetitions_overshoot :
  level_ordinal Severity (LevelString "high") = PInt 4 /\
  level_ordinal Severity (CountFlag 4) = PInt 5 /\
  ranking_level (PInt 4) = ([], Ret "HIGH") /\
  ranking_level (PInt 5) = ([], Raise IndexError) /\
  ~ high_equals_four_repetitions_as_stated Severity.
Proof.
  repeat split. by intros [H _].
Qed.

(** C6, as amended: the ordinal after [reps] repetitions of the severity
    or confidence count flag is 1 + reps, so it is at least 1, and it is at
    most 4, with the lookup of the threshold label in bounds, exactly when
    the flag is repeated at most three times. *)
Theorem count_ordinal_range (a : Axis) (reps : nat) :
  level_ordinal a (CountFlag reps) = PInt (1 + Z.of_nat reps) /\
  1 <= 1 + Z.of_nat reps /\
  (1 + Z.of_nat reps <= 4 <-> (reps <= 3)%nat) /\
  ((exists label,
      ranking_level (level_ordinal a (CountFlag reps)) = ([], Ret label))
   <-> (reps <= 3)%nat).
Proof.
  rewrite level_ordinal_count. repeat split; try lia.
  - intros [label Hlabel].
    destruct (decide (reps <= 3)%nat) as [|Hgt]; [done|].
    rewrite ranking_level_above in Hlabel by lia. done.
  - intros Hle. apply ranking_level_in_range. lia.
Qed.

(** C6 fails as stated: seven repetitions of [-i] give the ordinal 8, for
    which the ranking scale has no entry. *)
Lemma seven_repetitions_out_of_range :
  level_ordinal Confidence (CountFlag 7) = PInt 8 /\
  ranking_level (level_ordinal Confidence (CountFlag 7)) = ([], Raise IndexError) /\
  ~ count_ordinal_in_range_as_stated.
Proof.
  repeat split. intros H.
  destruct (H Confidence 7%nat) as (n & Hn & Hrange & _).
  rewrite level_ordinal_count in Hn. injection Hn as <-. lia.
Qed.

(** ** Profile resolution *)

Lemma truthy_PStr (s : string) : s <> "" -> truthy (PStr s) = true.
Proof. intros Hs. cbn [truthy]. by rewrite bool_decide_eq_false_2. Qed.

Lemma outcome_try_profile_errors {A} (body : M A) (handler : exn -> M A) :
  outcome (try_profile_errors body handler) =
  match outcome body with
  | Raise (ProfileNotFound p n) => outcome (handler (ProfileNotFound p n))
  | Raise (ValueError msg) => outcome (handler (ValueError msg))
  | r => r
  end.
Proof.
  destruct body as [t [a|c|e]]; try done.
  destruct e; try done; unfold try_profile_errors, outcome; cbn [snd];
    match goal with |- context [handler ?x] => by destruct (handler x) end.
Qed.

Lemma _log_info_returns (args : Namespace) (p : Profile) :
  outcome (_log_info args p) = Ret tt.
Proof. reflexivity. Qed.

Lemma update_profile_lists (args : Namespace) (p : Profile) (inc exc : string) :
  tests args = PStr inc -> skips args = PStr exc -> inc <> "" -> exc <> "" ->
  update_profile args p =
  ([], Ret {| include := include p ∪ list_to_set (split_on comma inc);
              exclude := exclude p ∪ list_to_set (split_on comma exc) |}).
Proof.
  intros Htests Hskips Hinc Hexc. unfold update_profile.
  by rewrite Htests, Hskips, !truthy_PStr.
Qed.

Lemma update_profile_additive (args : Namespace) (p p' : Profile) :
  outcome (update_profile args p) = Ret p' ->
  include p ⊆ include p' /\ exclude p ⊆ exclude p'.
Proof.
  unfold update_profile. intros H.
  destruct (outcome_bind_Ret _ _ _ H) as (inc & _ & H1).
  destruct (outcome_bind_Ret _ _ _ H1) as (exc & _ & H2).
  injection H2 as <-. cbn [include exclude]. set_solver.
Qed.

(** C4: with the resolved test list "B101,B102", the resolved skip list
    "B103" and no profile name, the profile handed on is the ad hoc profile
    of the configuration with both lists unioned in: its include set
    contains B101 and B102 and every test of the configuration, its exclude
    set contains B103 and every skip of the configuration (the run stops
    with exit code 2 instead when the registry rejects that profile); and
    whatever the lists are, the update only ever adds to the two sets. *)
Theorem profile_cli_lists_additive (w : World) (b_conf : BanditConfig)
    (args : Namespace)
    (Hname : truthy (profile args) = false)
    (Htests : tests args = PStr "B101,B102")
    (Hskips : skips args = PStr "B103") :
  let p := {| include := list_to_set (list_or_empty (cfg_tests b_conf))
                           ∪ list_to_set ["B101"; "B102"];
              exclude := list_to_set (list_or_empty (cfg_skips b_conf))
                           ∪ list_to_set ["B103"] |} in
  outcome (resolve_profile w b_conf args) =
    match validate_profile w p with None => Ret p | Some _ => Exit 2 end /\
  {[ "B101"; "B102" ]} ⊆ include p /\ {[ "B103" ]} ⊆ exclude p /\
  list_to_set (list_or_empty (cfg_tests b_conf)) ⊆ include p /\
  list_to_set (list_or_empty (cfg_skips b_conf)) ⊆ exclude p /\
  (forall (args' : Namespace) (q q' : Profile),
     outcome (update_profile args' q) = Ret q' ->
     include q ⊆ include q' /\ exclude q ⊆ exclude q').
Proof.
  cbn zeta.
  split; [|split; [|split; [|split; [|split]]];
           [ clear; apply union_subseteq_r'; cbn; set_solver
           | clear; set_solver ..
           | apply update_profile_additive]].
  unfold resolve_profile, profile_steps, _get_profile.
  rewrite outcome_try_profile_errors, Hname, !outcome_bind.
  cbn [outcome snd mret M_ret]. rewrite outcome_bind, _log_info_returns, outcome_bind.
  rewrite (update_profile_lists args _ _ _ Htests Hskips) by done.
  cbn [outcome snd include exclude].
  change (split_on comma "B101,B102") with ["B101"; "B102"].
  change (split_on comma "B103") with ["B103"].
  by destruct (validate_profile w _).
Qed.

Lemma profile_cli_lists_additive_witness :
  exists p,
    outcome (resolve_profile demo_world demo_config (demo_args ["proj"] PNone))
      = Ret p /\
    "B101" ∈ include p /\ "B102" ∈ include p /\ "B201" ∈ include p /\
    "B103" ∈ exclude p.
Proof.
  pose proof (profile_cli_lists_additive demo_world demo_config
                (demo_args ["proj"] PNone) eq_refl eq_refl eq_refl)
    as (Hout & Hinc & Hexc & Hcfg & _).
  cbn zeta in *. eexists. split; [exact Hout|].
  cbn [include exclude demo_config cfg_tests list_or_empty] in *. set_solver.
Defined.

(** ** Traces *)

Section Quiet.
Context {A B : Type} (P : event -> bool).

Lemma quiet_on_bind (m : M A) (f : A -> M B) :
  quiet_on P m -> (forall a, quiet_on P (f a)) -> quiet_on P (m ≫= f).
Proof.
  unfold quiet_on. intros Hm Hf. rewrite trace_bind.
  apply Forall_app. split; [done|].
  destruct (outcome m); [apply Hf | constructor | constructor].
Qed.

Lemma quiet_on_bind_Ret (m : M A) (f : A -> M B) :
  quiet_on P m -> (forall a, outcome m = Ret a -> quiet_on P (f a)) ->
  quiet_on P (m ≫= f).
Proof.
  unfold quiet_on. intros Hm Hf. rewrite trace_bind.
  apply Forall_app. split; [done|].
  destruct (outcome m); [by apply Hf | constructor | constructor].
Qed.

Lemma quiet_on_mret (a : A) : quiet_on P (mret a : M A).
Proof. constructor. Qed.

Lemma quiet_on_sys_exit (c : Z) : quiet_on P (sys_exit c : M A).
Proof. constructor. Qed.

Lemma quiet_on_raise (e : exn) : quiet_on P (raise e : M A).
Proof. constructor. Qed.

Lemma quiet_on_emit (e : event) : P e = false -> quiet_on P (emit e).
Proof. intros He. by repeat constructor. Qed.

Lemma quiet_on_try (body : M A) (handler : exn -> M A) :
  quiet_on P body -> (forall e, quiet_on P (handler e)) ->
  quiet_on P (try_profile_errors body handler).
Proof.
  unfold quiet_on, try_profile_errors. intros Hb Hh.
  destruct body as [t [a|c|e]]; try done.
  destruct e; try done;
    match goal with
    | |- context [handler ?x] =>
        specialize (Hh x); destruct (handler x); apply Forall_app; by split
    end.
Qed.

(** An event of class [P] in the trace of [m ≫= f], when [m] is quiet on
    [P], was emitted by [f] after [m] returned. *)
Lemma elem_of_trace_bind_quiet (m : M A) (f : A -> M B) (e : event) :
  P e = true -> quiet_on P m -> e ∈ trace (m ≫= f) ->
  exists a, outcome m = Ret a /\ e ∈ trace (f a) /\
            outcome (m ≫= f) = outcome (f a) /\
            trace (m ≫= f) = trace m ++ trace (f a).
Proof.
  intros He Hm. rewrite trace_bind, outcome_bind, elem_of_app.
  intros [Hin|Hin].
  - unfold quiet_on in Hm. rewrite Forall_forall in Hm.
    apply Hm in Hin. congruence.
  - destruct (outcome m) as [a|c|x]; [eauto | by inversion Hin ..].
Qed.
End Quiet.

Lemma quiet_on_weaken {A} (P Q : event -> bool) (m : M A) :
  (forall e, Q e = true -> P e = true) -> quiet_on P m -> quiet_on Q m.
Proof.
  unfold quiet_on. intros HQP Hm. eapply Forall_impl; [exact Hm|].
  intros e He. cbn beta in *.
  destruct (Q e) eqn:HQ; [|done]. apply HQP in HQ. congruence.
Qed.

(** Decomposes a goal [quiet_on P m] along the structure of [m]. *)
Ltac quiet_step :=
  match goal with
  | |- quiet_on _ (mret _) => apply quiet_on_mret
  | |- quiet_on _ (sys_exit _) => apply quiet_on_sys_exit
  | |- quiet_on _ (raise _) => apply quiet_on_raise
  | |- quiet_on _ (emit _) => apply quiet_on_emit; reflexivity
  | |- quiet_on _ (_ ≫= _) => apply quiet_on_bind; [|intros]
  | |- quiet_on _ (try_profile_errors _ _) => apply quiet_on_try; [|intros]
  | |- quiet_on _ (if ?c then _ else _) => destruct c
  | |- quiet_on _ (match ?x with _ => _ end) => destruct x
  | |- quiet_on _ (let _ := _ in _) => cbv zeta
  end.

Ltac quiet_tac := repeat quiet_step.

Lemma _log_option_source_quiet d a i n :
  quiet_on manager_call (_log_option_source d a i n).
Proof. unfold _log_option_source. quiet_tac. Qed.

Lemma _get_options_from_ini_quiet w ini_path target :
  quiet_on manager_call (_get_options_from_ini w ini_path target).
Proof. unfold _get_options_from_ini, py_iter. quiet_tac. Qed.

Lemma merge_ini_options_quiet w args opts :
  quiet_on manager_call (merge_ini_options w args opts).
Proof.
  unfold merge_ini_options, ini_number, py_split.
  repeat first [apply _log_option_source_quiet | quiet_step].
Qed.

Lemma configure_quiet w parsed : quiet_on manager_call (configure w parsed).
Proof.
  unfold configure.
  repeat first [apply _get_options_from_ini_quiet
               | apply merge_ini_options_quiet | quiet_step].
Qed.

Lemma resolve_profile_quiet w b_conf args :
  quiet_on manager_call (resolve_profile w b_conf args).
Proof.
  unfold resolve_profile, profile_steps, _get_profile, _log_info,
    update_profile, py_split.
  quiet_tac.
Qed.

(** ** Ini discovery *)

Lemma append_nonempty_r (a b : string) : b <> "" -> a +:+ b <> "".
Proof. intros Hb. destruct a; [done|discriminate]. Qed.

Lemma os_path_join_nonempty (a b : string) : b <> "" -> os_path_join a b <> "".
Proof.
  intros Hb. unfold os_path_join.
  destruct (starts_with_slash b); [done|].
  destruct (_ || _); repeat apply append_nonempty_r; done.
Qed.

(** Every path the walk collects is a non-empty string. *)
Lemma find_bandit_files_nonempty (w : World) (target : list string) (f : string) :
  f ∈ find_bandit_files w target -> f <> "".
Proof.
  unfold find_bandit_files. rewrite list_elem_of_In, in_flat_map.
  intros (t & _ & Hin). apply in_flat_map in Hin as ([[root dirs] names] & _ & Hin).
  apply list_elem_of_In, list_elem_of_fmap in Hin as (name & -> & Hname).
  apply list_elem_of_filter in Hname as [-> _].
  by apply os_path_join_nonempty.
Qed.

Lemma two_distinct_length {A} (l : list A) (p q : A) :
  p ∈ l -> q ∈ l -> p <> q -> (1 < length l)%nat.
Proof.
  destruct l as [|x [|y l]]; cbn [length]; [| |lia].
  - by intros ?%elem_of_nil.
  - intros ->%list_elem_of_singleton ->%list_elem_of_singleton. done.
Qed.

Lemma found_multiple (w : World) (ini_path : pyval) (ts : list string) :
  truthy ini_path = false ->
  (1 < length (find_bandit_files w ts))%nat ->
  _get_options_from_ini w ini_path (PList ts) =
  ([Log ERROR multiple_ini_message
      [AVal (PStr (join ", " (find_bandit_files w ts)))]], Exit 2).
Proof.
  intros Hini Hlen. unfold _get_options_from_ini. rewrite Hini.
  cbn [py_iter]. unfold mbind at 2, M_bind, mret, M_ret. cbn zeta iota.
  destruct (Z.ltb_spec 1 (Z.of_nat (length (find_bandit_files w ts)))); [|lia].
  reflexivity.
Qed.

Lemma found_single (w : World) (ini_path : pyval) (ts : list string)
    (f : string) :
  truthy ini_path = false ->
  find_bandit_files w ts = [f] ->
  _get_options_from_ini w ini_path (PList ts) =
  ([Log INFO "Found project level .bandit file: %s" [AVal (PStr f)]],
   Ret (parse_ini_file w (PStr f))).
Proof.
  intros Hini Hfiles.
  assert (truthy (PStr f) = true) as Hf.
  { apply truthy_PStr, (find_bandit_files_nonempty w ts).
    rewrite Hfiles. by apply list_elem_of_singleton. }
  unfold _get_options_from_ini. rewrite Hini.
  cbn [py_iter]. unfold mbind at 2, M_bind, mret, M_ret. cbn zeta iota.
  rewrite Hfiles.
  change (1 <? Z.of_nat (length [f])) with false.
  change (Z.of_nat (length [f]) =? 1) with true.
  cbn -[truthy]. unfold mbind, M_bind. by rewrite Hf.
Qed.

Lemma found_none (w : World) (ini_path : pyval) (ts : list string) :
  truthy ini_path = false ->
  find_bandit_files w ts = [] ->
  _get_options_from_ini w ini_path (PList ts) = ([], Ret None).
Proof.
  intros Hini Hfiles. unfold _get_options_from_ini. rewrite Hini.
  cbn [py_iter]. unfold mbind at 2, M_bind, mret, M_ret. cbn zeta iota.
  by rewrite Hfiles.
Qed.

(** Once ini discovery has exited with 2, so has [main]; the steps before
    it can only exit with 2 themselves. *)
Lemma main_stops_at_ini (w : World) (parsed : Namespace) :
  outcome (_get_options_from_ini w (ini_path parsed) (targets parsed)) = Exit 2 ->
  outcome (main w parsed) = Exit 2.
Proof.
  intros Hini. unfold main. rewrite outcome_bind.
  assert (outcome (configure w parsed) = Exit 2) as ->; [|done].
  unfold configure. rewrite outcome_bind.
  destruct (negb _ && negb _); [done|]. cbn [outcome snd mret M_ret].
  rewrite outcome_bind.
  destruct (negb (is_none (no_line_numbers parsed))); cbn [outcome snd mret M_ret emit];
    (rewrite outcome_bind; destruct (load_config w _); [done|];
     cbn [outcome snd mret M_ret]; rewrite outcome_bind;
     cbn [ini_path targets]; by rewrite Hini).
Qed.

(** C7: with no explicit ini path, when the walk over the target roots
    collects .bandit files at two or more distinct paths, ini discovery
    logs all collected paths and exits with code 2, and so does the run,
    without a single call into the scan manager; when the walk collects
    exactly one file, that file is parsed and its options are returned;
    when it collects none, no options are returned and nothing is logged
    or raised. *)
Theorem ini_discovery (w : World) (parsed : Namespace) (ts : list string)
    (Hini : truthy (ini_path parsed) = false)
    (Htargets : targets parsed = PList ts) :
  let files := find_bandit_files w ts in
  let found := _get_options_from_ini w (ini_path parsed) (targets parsed) in
  ((exists p q, p ∈ files /\ q ∈ files /\ p <> q) ->
     found = ([Log ERROR multiple_ini_message [AVal (PStr (join ", " files))]],
              Exit 2) /\
     outcome (main w parsed) = Exit 2 /\
     quiet_on manager_call (main w parsed)) /\
  (forall f, files = [f] ->
     found = ([Log INFO "Found project level .bandit file: %s" [AVal (PStr f)]],
              Ret (parse_ini_file w (PStr f)))) /\
  (files = [] -> found = ([], Ret None)).
Proof.
  cbn zeta. rewrite Htargets. split; [|split].
  - intros (p & q & Hp & Hq & Hpq).
    pose proof (found_multiple w _ ts Hini
                  (two_distinct_length _ p q Hp Hq Hpq)) as Hfound.
    split; [done|].
    assert (outcome (main w parsed) = Exit 2) as Hmain.
    { apply main_stops_at_ini. by rewrite Htargets, Hfound. }
    split; [done|].
    unfold main, quiet_on. rewrite trace_bind.
    unfold main in Hmain. rewrite outcome_bind in Hmain.
    destruct (outcome (configure w parsed)) as [[b_conf args]|c|e] eqn:Hconf.
    + (* configure cannot have returned: discovery is one of its steps *)
      exfalso. revert Hconf. unfold configure. intros Hconf.
      destruct (outcome_bind_Ret _ _ _ Hconf) as (? & _ & H1).
      destruct (outcome_bind_Ret _ _ _ H1) as (? & _ & H2).
      destruct (outcome_bind_Ret _ _ _ H2) as (? & _ & H3).
      destruct (outcome_bind_Ret _ _ _ H3) as (opts & Hopts & _).
      cbn [ini_path targets] in Hopts. by rewrite Htargets, Hfound in Hopts.
    + rewrite app_nil_r. apply configure_quiet.
    + rewrite app_nil_r. apply configure_quiet.
  - intros f Hf. by apply found_single.
  - intros Hnone. by apply found_none.
Qed.

Lemma ini_discovery_witness :
  _get_options_from_ini demo_world PNone (PList ["proj"; "lib"; "vendor"]) =
    ([Log ERROR multiple_ini_message
        [AVal (PStr "proj/.bandit, vendor/pkg/.bandit")]], Exit 2) /\
  outcome (main demo_world (demo_args ["proj"; "lib"; "vendor"] PNone)) = Exit 2 /\
  _get_options_from_ini demo_world PNone (PList ["proj"; "lib"]) =
    ([Log INFO "Found project level .bandit file: %s"
        [AVal (PStr "proj/.bandit")]],
     Ret (Some {[ "no-line-numbers" := "1" ]})) /\
  _get_options_from_ini demo_world PNone (PList ["lib"]) = ([], Ret None).
Proof.
  pose proof (ini_discovery demo_world (demo_args ["proj"; "lib"; "vendor"] PNone)
                ["proj"; "lib"; "vendor"] eq_refl eq_refl) as (Hmany & _ & _).
  pose proof (ini_discovery demo_world (demo_args ["proj"; "lib"] PNone)
                ["proj"; "lib"] eq_refl eq_refl) as (_ & Hone & _).
  pose proof (ini_discovery demo_world (demo_args ["lib"] PNone)
                ["lib"] eq_refl eq_refl) as (_ & _ & Hnone).
  destruct Hmany as (Hfound & Hexit & _).
  { exists "proj/.bandit", "vendor/pkg/.bandit".
    split; [|split]; [vm_compute; set_solver .. | done]. }
  split; [exact Hfound|]. split; [exact Hexit|]. split.
  - exact (Hone "proj/.bandit" eq_refl).
  - exact (Hnone eq_refl).
Defined.

(** ** The exit code *)

(** Inverts [outcome (m ≫= f) = Ret b] as long as it applies, keeping what
    each step returned. *)
Ltac bind_inv H :=
  repeat (let a := fresh "v" in
          let Ha := fresh "Hv" in
          let H' := fresh "Hk" in
          destruct (outcome_bind_Ret _ _ _ H) as (a & Ha & H');
          clear H; rename H' into H).

Lemma merge_ini_options_keeps (w : World) (args ns : Namespace)
    (opts : gmap string string) :
  outcome (merge_ini_options w args opts) = Ret ns ->
  exit_zero ns = exit_zero args /\ ini_path ns = ini_path args /\
  config_file ns = config_file args.
Proof.
  unfold merge_ini_options. intros H. bind_inv H. by injection H as <-.
Qed.

Lemma configure_keeps (w : World) (parsed args : Namespace) (b_conf : BanditConfig) :
  outcome (configure w parsed) = Ret (b_conf, args) ->
  exit_zero args = exit_zero parsed.
Proof.
  unfold configure. intros H. cbv zeta in H. bind_inv H.
  injection H as <- <-.
  match goal with
  | Hm : outcome (match ?o with _ => _ end) = Ret _ |- _ =>
      destruct o as [opts|]; [destruct (bool_decide (opts = ∅))|]
  end;
    first [ by match goal with Hm : outcome (mret _) = Ret _ |- _ =>
                 injection Hm as <- end
          | match goal with Hm : outcome (merge_ini_options _ _ _) = Ret _ |- _ =>
              by apply merge_ini_options_keeps in Hm as (-> & _) end ].
Qed.

Lemma is_report_manager_call (e : event) :
  is_report e = true -> manager_call e = true.
Proof. by destruct e. Qed.

(** Discharges [quiet_on is_report] for the steps of [run]. *)
Ltac report_quiet :=
  solve [ apply (quiet_on_weaken manager_call);
            [exact is_report_manager_call | apply resolve_profile_quiet]
        | unfold init_logger_call, check_baseline, log_run_info, ranking_level,
            py_index;
            quiet_tac ].

(** A ranking lookup that returns was made with an integer level, and
    returns the entry of [RANKING] one below it, counted from the end for
    a level below 1. *)
Lemma ranking_level_Ret (v : pyval) (label : string) :
  outcome (ranking_level v) = Ret label ->
  exists n, py_int_value v = Some n /\ -3 <= n <= 4 /\
            RANKING !! Z.to_nat ((n - 1) mod 4) = Some label.
Proof.
  assert (forall n, outcome (py_index RANKING (n - 1)) = Ret label ->
                    -3 <= n <= 4 /\
                    RANKING !! Z.to_nat ((n - 1) mod 4) = Some label) as Hidx.
  { intros n. unfold py_index.
    change (Z.of_nat (length RANKING)) with 4.
    destruct (Z.ltb_spec (n - 1) 0) as [Hneg|Hpos].
    - destruct (Z.leb_spec 0 (4 + (n - 1))); [|done].
      destruct (Z.ltb_spec (4 + (n - 1)) 4); [|done]. cbn [andb].
      assert ((n - 1) mod 4 = 4 + (n - 1)) as ->
        by (symmetry; apply (Z.mod_unique _ _ (-1)); lia).
      destruct (RANKING !! Z.to_nat (4 + (n - 1))) as [x|] eqn:Hx; [|done].
      intros [= ->]. split; [lia|done].
    - destruct (Z.leb_spec 0 (n - 1)); [|done].
      destruct (Z.ltb_spec (n - 1) 4); [|done]. cbn [andb].
      rewrite Z.mod_small by lia.
      destruct (RANKING !! Z.to_nat (n - 1)) as [x|] eqn:Hx; [|done].
      intros [= ->]. split; [lia|done]. }
  destruct v as [|b|n| | |]; try done; cbn [ranking_level py_int_value];
    intros H; apply Hidx in H; eauto.
Qed.

Lemma run_report_levels (w : World) (b_conf : BanditConfig) (args : Namespace)
    (e : event) :
  is_report e = true -> e ∈ trace (run w b_conf args) ->
  exists sev conf,
    e = OutputResults (context_lines args) sev conf
          (output_file args) (output_format args) (msg_template args) /\
    outcome (ranking_level (severity args)) = Ret sev /\
    outcome (ranking_level (confidence args)) = Ret conf /\
    outcome (run w b_conf args) =
    Exit (if (0 <? results_count w sev conf) && negb (truthy (exit_zero args))
          then 1 else 0).
Proof.
  intros He Hin. unfold run in *.
  repeat (apply (elem_of_trace_bind_quiet is_report) in Hin
            as (? & ? & Hin & -> & _); [|exact He|report_quiet]).
  match type of Hin with
  | _ ∈ trace (emit (OutputResults _ ?sev ?conf _ _ _) ≫= _) => exists sev, conf
  end.
  rewrite trace_bind, outcome_bind in *. cbn [emit trace outcome fst snd] in *.
  split; [|split; [done|split; [done|]]].
  - destruct (_ && _); cbn [sys_exit fst app] in Hin;
      by apply list_elem_of_singleton in Hin.
  - by destruct (_ && _).
Qed.


(** C1: a run that gets as far as writing the report was configured
    without a fatal error, and its resolved severity and confidence levels
    are integers [sn] and [cn] between -3 and 4; the report is written
    with the thresholds [RANKING[sn - 1]] for severity and
    [RANKING[cn - 1]] for confidence (a level below 1 counts from the end
    of the scale), in that order; and the run exits with code 1 if the
    manager counts at least one issue at or above these two thresholds and
    exit-zero was not requested, and with code 0 otherwise. *)
Theorem exit_code_after_report (w : World) (parsed : Namespace)
    (context_lines : pyval) (sev conf : string)
    (output_file output_format msg_template : pyval)
    (Hreport : OutputResults context_lines sev conf
                 output_file output_format msg_template ∈ trace (main w parsed)) :
  (exists (b_conf : BanditConfig) (args : Namespace) (sn cn : Z),
     outcome (configure w parsed) = Ret (b_conf, args) /\
     py_int_value (severity args) = Some sn /\
     py_int_value (confidence args) = Some cn /\
     -3 <= sn <= 4 /\ -3 <= cn <= 4 /\
     RANKING !! Z.to_nat ((sn - 1) mod 4) = Some sev /\
     RANKING !! Z.to_nat ((cn - 1) mod 4) = Some conf) /\
  outcome (main w parsed) =
  Exit (if (0 <? results_count w sev conf) && negb (truthy (exit_zero parsed))
        then 1 else 0).
Proof.
  unfold main in *.
  apply (elem_of_trace_bind_quiet is_report) in Hreport
    as ([b_conf args] & Hconf & Hreport & -> & _); [|done|].
  - apply run_report_levels in Hreport
      as (sev' & conf' & Heq & Hsev & Hcnf & ->); [|done].
    injection Heq as _ <- <- _ _ _.
    apply ranking_level_Ret in Hsev as (sn & Hsn & Hsr & Hsl).
    apply ranking_level_Ret in Hcnf as (cn & Hcn & Hcr & Hcl).
    split; [by exists b_conf, args, sn, cn|].
    by rewrite (configure_keeps _ _ _ _ Hconf).
  - apply (quiet_on_weaken manager_call);
      [exact is_report_manager_call | apply configure_quiet].
Qed.

Lemma exit_code_after_report_witness :
  (exists (b_conf : BanditConfig) (args : Namespace) (sn cn : Z),
     outcome (configure demo_world (demo_args ["lib"] PNone))
       = Ret (b_conf, args) /\
     py_int_value (severity args) = Some sn /\
     py_int_value (confidence args) = Some cn /\
     -3 <= sn <= 4 /\ -3 <= cn <= 4 /\
     RANKING !! Z.to_nat ((sn - 1) mod 4) = Some "UNDEFINED" /\
     RANKING !! Z.to_nat ((cn - 1) mod 4) = Some "UNDEFINED") /\
  outcome (main demo_world (demo_args ["lib"] PNone)) = Exit 1.
Proof.
  apply (exit_code_after_report demo_world (demo_args ["lib"] PNone)
           (PInt 3) "UNDEFINED" "UNDEFINED" sys_stdout (PStr "txt") PNone).
  apply list_elem_of_In. vm_compute.
  repeat first [left; reflexivity | right].
Defined.

(** ** The order of the fatal checks *)


(** Discharges [quiet_on P] for the steps of [run] that precede the
    scan. *)
Ltac scan_quiet Hsub :=
  solve [ apply (quiet_on_weaken manager_call);
            [exact Hsub | apply resolve_profile_quiet]
        | unfold init_logger_call, check_baseline, log_run_info, ranking_level,
            py_index;
            quiet_tac ].

Lemma is_execution_manager_call (e : event) :
  is_execution e = true -> manager_call e = true.
Proof. by destruct e. Qed.









Lemma init_logger_call_accepted (w : World) (lvl : loglevel)
    (log_format : option string) :
  formatter_rejects (formatter_accepts w) log_format = false ->
  init_logger_call w lvl log_format = ([InitLogger lvl log_format], Ret tt).
Proof. intros Hok. unfold init_logger_call. by rewrite Hok. Qed.

(** With an acceptable log format the two logger steps of [run] return. *)
Lemma logger_steps_return (w : World) (b_conf : BanditConfig) (args : Namespace) :
  log_format_ok w b_conf = true ->
  outcome (if truthy (of_option_str (cfg_log_format b_conf))
           then init_logger_call w DEBUG (cfg_log_format b_conf)
           else mret tt) = Ret tt /\
  outcome (if truthy (quiet args) then init_logger_call w WARNING None
           else mret tt) = Ret tt.
Proof.
  unfold log_format_ok. intros Hok%negb_true_iff. split.
  - destruct (truthy _); [|done]. by rewrite init_logger_call_accepted.
  - by destruct (truthy _).
Qed.

Lemma update_profile_typed (args : Namespace) (p : Profile) :
  str_or_none (tests args) = true -> str_or_none (skips args) = true ->
  exists p', outcome (update_profile args p) = Ret p'.
Proof.
  intros Ht Hs. unfold update_profile.
  destruct (tests args) as [| | |ts| |], (skips args) as [| | |ss| |];
    try done; cbn [truthy py_split];
    repeat match goal with
           | |- context [negb (bool_decide ?P)] => destruct (negb (bool_decide P))
           end; by eexists.
Qed.

(** With string-or-None profile name and test lists, the statements
    under [try:] return a profile or raise one of the two exceptions the
    handler catches. *)
Lemma profile_steps_typed (w : World) (b_conf : BanditConfig) (args : Namespace) :
  str_or_none (profile args) = true ->
  str_or_none (tests args) = true ->
  str_or_none (skips args) = true ->
  (exists p, outcome (profile_steps w b_conf args) = Ret p) \/
  (exists c n, outcome (profile_steps w b_conf args) = Raise (ProfileNotFound c n)) \/
  (exists msg, outcome (profile_steps w b_conf args) = Raise (ValueError msg)).
Proof.
  intros Hp Ht Hs. unfold profile_steps. rewrite outcome_bind.
  assert (forall p,
            (exists q,
               outcome (_log_info args p;;
                        p' ← update_profile args p;
                        match validate_profile w p' with
                        | Some msg => raise (ValueError msg)
                        | None => mret p'
                        end) = Ret q) \/
            (exists msg,
               outcome (_log_info args p;;
                        p' ← update_profile args p;
                        match validate_profile w p' with
                        | Some msg => raise (ValueError msg)
                        | None => mret p'
                        end) = Raise (ValueError msg))) as Hrest.
  { intros p. destruct (update_profile_typed args p Ht Hs) as [p' Hp'].
    rewrite outcome_bind, _log_info_returns, outcome_bind, Hp'.
    destruct (validate_profile w p'); [right|left]; by eexists. }
  unfold _get_profile.
  destruct (profile args) as [| | |n| |]; try done.
  - cbn [truthy mret M_ret outcome snd]. destruct (Hrest
      {| include := list_to_set (list_or_empty (cfg_tests b_conf));
         exclude := list_to_set (list_or_empty (cfg_skips b_conf)) |});
      [by left|by right; right].
  - destruct (truthy (PStr n)).
    + destruct (match cfg_profiles b_conf with Some ps => ps | None => ∅ end !! n)
        as [p|]; [|right; left; by do 2 eexists].
      rewrite outcome_bind. cbn [emit outcome snd].
      destruct (Hrest p); [by left|by right; right].
    + cbn [mret M_ret outcome snd]. destruct (Hrest
        {| include := list_to_set (list_or_empty (cfg_tests b_conf));
           exclude := list_to_set (list_or_empty (cfg_skips b_conf)) |});
        [by left|by right; right].
Qed.

(** With string-or-None profile name and test lists, profile resolution
    either returns a profile or exits with 2; nothing escapes its
    handler. *)
Lemma resolve_profile_typed (w : World) (b_conf : BanditConfig) (args : Namespace) :
  str_or_none (profile args) = true ->
  str_or_none (tests args) = true ->
  str_or_none (skips args) = true ->
  outcome (resolve_profile w b_conf args) = Exit 2 \/
  exists p, outcome (resolve_profile w b_conf args) = Ret p.
Proof.
  intros Hp Ht Hs. unfold resolve_profile. rewrite outcome_try_profile_errors.
  destruct (profile_steps_typed w b_conf args Hp Ht Hs)
    as [[p ->]|[(c & n & ->)|[msg ->]]]; [right; by eexists|by left..].
Qed.

Lemma scan_event_manager_call (e : event) :
  scan_event e = true -> manager_call e = true.
Proof. by destruct e. Qed.


(** ** [main] in terms of its two halves *)

Lemma main_of_configure (w : World) (parsed args : Namespace) (b_conf : BanditConfig) :
  outcome (configure w parsed) = Ret (b_conf, args) ->
  outcome (main w parsed) = outcome (run w b_conf args) /\
  trace (main w parsed) = trace (configure w parsed) ++ trace (run w b_conf args).
Proof.
  intros Hconf. unfold main. by rewrite outcome_bind, trace_bind, Hconf.
Qed.

Lemma quiet_on_main (P : event -> bool) (w : World) (parsed : Namespace) :
  (forall e, P e = true -> manager_call e = true) ->
  (forall b_conf args,
     outcome (configure w parsed) = Ret (b_conf, args) ->
     quiet_on P (run w b_conf args)) ->
  quiet_on P (main w parsed).
Proof.
  intros HP Hrun. unfold main. apply quiet_on_bind_Ret.
  - apply (quiet_on_weaken manager_call); [done|apply configure_quiet].
  - intros [b_conf args] Hconf. by apply Hrun.
Qed.






(** ** The no-line-numbers option *)

Lemma py_eq_false_resolved (a i : pyval) (n : string) (v : pyval) :
  outcome (_log_option_source PNone a i n) = Ret v ->
  py_eq (PBool false) v = false.
Proof.
  rewrite _log_option_source_returns. cbn [is_none]. intros [= <-].
  destruct (truthy a) eqn:Ha; [by destruct a as [|[]|z| | |]; try destruct z|].
  destruct (truthy i) eqn:Hi; [by destruct i as [|[]|z| | |]; try destruct z|].
  done.
Qed.

(** C9: in the ini merge the no-line-numbers option is resolved by the
    option-source resolver with the baseline (as just resolved) in the
    place of the supplied value; the resolved no-line-numbers value is
    therefore the resolved baseline, and the whole merge does not depend
    on the parsed no-line-numbers value. *)
Theorem no_line_numbers_resolved_from_baseline (w : World) (args ns : Namespace)
    (ini_options : gmap string string)
    (Hmerge : outcome (merge_ini_options w args ini_options) = Ret ns) :
  outcome (_log_option_source default_baseline (baseline args)
             (dict_get ini_options "baseline") "path of a baseline report")
    = Ret (baseline ns) /\
  outcome (_log_option_source default_no_line_numbers (baseline ns)
             (dict_get ini_options "no-line-numbers") "do not print code's lines.")
    = Ret (no_line_numbers ns) /\
  no_line_numbers ns = baseline ns /\
  (forall v,
     merge_ini_options w (with_no_line_numbers v args) ini_options =
     merge_ini_options w args ini_options).
Proof.
  split; [|split; [|split]]; [| | |done];
    unfold merge_ini_options in Hmerge; bind_inv Hmerge;
    injection Hmerge as <-; cbn [baseline no_line_numbers]; try done.
  match goal with
  | Hnln : outcome (_log_option_source default_no_line_numbers ?b _ _) = Ret ?v,
    Hbl : outcome (_log_option_source default_baseline _ _ _) = Ret ?b |- _ =>
      rewrite _log_option_source_returns in Hnln;
      unfold default_no_line_numbers in Hnln; cbn [is_none] in Hnln;
      rewrite (py_eq_false_resolved _ _ _ _ Hbl) in Hnln;
      by injection Hnln as <-
  end.
Qed.

Lemma no_line_numbers_resolved_from_baseline_witness :
  exists ns,
    outcome (merge_ini_options demo_world
               (with_no_line_numbers (PStr "yes")
                  (demo_args ["proj"] (PStr "base.json")))
               {[ "no-line-numbers" := "1" ]}) = Ret ns /\
    no_line_numbers ns = PStr "base.json".
Proof.
  eexists. split; [reflexivity|].
  pose proof (no_line_numbers_resolved_from_baseline demo_world
                (with_no_line_numbers (PStr "yes")
                   (demo_args ["proj"] (PStr "base.json")))
                _ {[ "no-line-numbers" := "1" ]} eq_refl) as (_ & _ & Heq & _).
  exact Heq.
Defined.

(** In every run that gets past the message-template check, the first
    thing [main] does is to write the string of the parsed value to the
    environment; the ini file has not been looked for yet. *)
Lemma env_write_uses_parsed_value (w : World) (parsed : Namespace) :
  negb (py_eq (output_format parsed) (PStr "custom"))
    && negb (is_none (msg_template parsed)) = false ->
  is_none (no_line_numbers parsed) = false ->
  head (trace (main w parsed)) =
  Some (SetEnv "BANDIT_NO_LINES" (py_str (no_line_numbers parsed))).
Proof.
  intros Htemplate Hset. unfold main, configure.
  rewrite trace_bind, trace_bind, Htemplate, Hset.
  cbn [negb mret M_ret trace outcome fst snd app].
  by rewrite trace_bind.
Qed.

(** C10 at a failing input: [bandit -r -t B101,B102 -s B103 proj] where
    [proj/.bandit] sets [no-line-numbers = 1].  The environment variable
    is written once, first thing, with the string of the parsed value
    ("False": the flag was not given); the ini merge that follows
    resolves the option to None, and nothing is written after it. *)
Lemma env_written_before_ini_merge :
  let parsed := demo_args ["proj"] PNone in
  exists b_conf args rest,
    configure demo_world parsed =
      (SetEnv "BANDIT_NO_LINES" "False" :: rest, Ret (b_conf, args)) /\
    head rest = Some (Log INFO "Found project level .bandit file: %s"
                        [AVal (PStr "proj/.bandit")]) /\
    no_line_numbers args = PNone /\
    filter (fun e => is_setenv e = true) (trace (main demo_world parsed)) =
      [SetEnv "BANDIT_NO_LINES" "False"].
Proof.
  cbn zeta. do 3 eexists. split; [by vm_compute|]. by vm_compute.
Qed.

(** * Further properties of the code *)

(** ** The resolver, beyond the two policies *)

Lemma truthy_not_none (v : pyval) : truthy v = true -> is_none v = false.
Proof. by destruct v. Qed.

Lemma py_eq_refl_truthy (d v : pyval) :
  is_none d = false -> py_eq d v = true -> is_none v = false.
Proof. by destruct d, v. Qed.

(** X1: resolving is idempotent: feeding the resolved value back as the
    supplied value, with the same default and the same ini value, returns
    it unchanged. *)
Theorem resolver_idempotent (d a i : pyval) (n : string) (v : pyval)
    (Hv : resolved d a i n = Ret v) :
  resolved d v i n = Ret v.
Proof.
  unfold resolved in *. rewrite _log_option_source_returns in *.
  injection Hv as <-.
  destruct (is_none d).
  - destruct (truthy a) eqn:Ha; [by rewrite Ha|].
    destruct (truthy i) eqn:Hi; [by rewrite Hi|done].
  - destruct (py_eq d a) eqn:Hda; [|by rewrite Hda].
    destruct (truthy i) eqn:Hi; [|by rewrite Hda].
    by destruct (py_eq d i).
Qed.

Lemma resolver_idempotent_witness :
  resolved (PInt 3) (PInt 5) (PInt 7) "n" = Ret (PInt 5).
Proof.
  apply (resolver_idempotent (PInt 3) (PInt 5) (PInt 7) "n" (PInt 5)).
  reflexivity.
Defined.

(** X2: the resolver never invents a value: what it returns is the
    supplied value, the ini value, or None; with a non-null default it is
    the supplied or the ini value, and the default object itself is never
    substituted for a supplied value it compares equal to. *)
Theorem resolver_provenance (d a i : pyval) (n : string) :
  (resolved d a i n = Ret a \/ resolved d a i n = Ret i \/
   resolved d a i n = Ret PNone) /\
  (is_none d = false -> resolved d a i n = Ret a \/ resolved d a i n = Ret i) /\
  (is_none d = false -> truthy i = false -> resolved d a i n = Ret a).
Proof.
  unfold resolved. rewrite _log_option_source_returns.
  destruct (is_none d), (py_eq d a), (truthy a), (truthy i); naive_solver.
Qed.

(** X3: what the resolver logs: for a defaulted option nothing at all;
    for a defaultless option one INFO line naming the option when the
    command line or the ini file supplies a value, and nothing when the
    option stays unset. *)
Theorem resolver_logging (d a i : pyval) (n : string) :
  (is_none d = false -> trace (_log_option_source d a i n) = []) /\
  (is_none d = true -> truthy a = true ->
     trace (_log_option_source d a i n) =
     [Log INFO "Using command line arg for %s" [AVal (PStr n)]]) /\
  (is_none d = true -> truthy a = false -> truthy i = true ->
     trace (_log_option_source d a i n) =
     [Log INFO "Using ini file for %s" [AVal (PStr n)]]) /\
  (is_none d = true -> truthy a = false -> truthy i = false ->
     trace (_log_option_source d a i n) = []).
Proof.
  unfold _log_option_source.
  repeat split; intros;
    repeat match goal with H : _ = _ |- _ => rewrite H; clear H end;
    try done.
  by destruct (py_eq d a).
Qed.

Lemma resolver_logging_witness :
  trace (_log_option_source (PStr "file") (PStr "file") (PStr "vuln") "a") = [] /\
  trace (_log_option_source PNone (PStr "B101") PNone "selected tests") =
    [Log INFO "Using command line arg for %s" [AVal (PStr "selected tests")]].
Proof.
  split.
  - apply (proj1 (resolver_logging (PStr "file") (PStr "file") (PStr "vuln") "a")).
    reflexivity.
  - apply (proj1 (proj2 (resolver_logging PNone (PStr "B101") PNone
                           "selected tests"))); reflexivity.
Defined.

(** ** Level names *)

(** X4: the i-th of the four level names selects the i-th tier of the
    ranking scale, on either axis and whatever the count flag's default:
    all, low, medium, high give UNDEFINED, LOW, MEDIUM, HIGH, so a named
    level never indexes the scale out of bounds. *)
Theorem named_level_in_bounds (a : Axis) (i : nat) (name : string)
    (Hname : level_choices !! i = Some name) :
  exists label,
    RANKING !! i = Some label /\
    level_ordinal a (LevelString name) = PInt (Z.of_nat i + 1) /\
    ranking_level (level_ordinal a (LevelString name)) = ([], Ret label).
Proof.
  destruct i as [|[|[|[|i]]]]; try done; injection Hname as <-;
    eexists; by destruct a.
Qed.

Lemma named_level_in_bounds_witness :
  exists label,
    RANKING !! 2%nat = Some label /\
    level_ordinal Confidence (LevelString "medium") = PInt 3 /\
    ranking_level (level_ordinal Confidence (LevelString "medium")) =
      ([], Ret label).
Proof. exact (named_level_in_bounds Confidence 2 "medium" eq_refl). Defined.

Lemma resolver_provenance_witness :
  resolved (PBool false) (PBool false) (PStr "") "debug mode" = Ret (PBool false).
Proof.
  apply (proj2 (proj2 (resolver_provenance (PBool false) (PBool false) (PStr "")
                         "debug mode"))); reflexivity.
Defined.

(** ** Ini discovery, beyond the three counts *)

(** X5: an explicit ini path is used unconditionally: the targets are not
    walked (they need not even be a list), nothing is logged, and the
    result is whatever parsing that one file gives, also when the targets
    hold several .bandit files of their own. *)
Theorem explicit_ini_path_wins (w : World) (ini_path target : pyval)
    (Hpath : truthy ini_path = true) :
  _get_options_from_ini w ini_path target = ([], Ret (parse_ini_file w ini_path)).
Proof.
  unfold _get_options_from_ini. rewrite Hpath.
  unfold mbind, M_bind, mret, M_ret. by rewrite Hpath.
Qed.

Lemma explicit_ini_path_wins_witness :
  _get_options_from_ini demo_world (PStr "proj/.bandit")
    (PList ["proj"; "vendor"]) =
  ([], Ret (Some {[ "no-line-numbers" := "1" ]})).
Proof.
  exact (explicit_ini_path_wins demo_world (PStr "proj/.bandit")
           (PList ["proj"; "vendor"]) eq_refl).
Defined.

Lemma find_bandit_files_app (w : World) (l k : list string) :
  find_bandit_files w (l ++ k) = find_bandit_files w l ++ find_bandit_files w k.
Proof. unfold find_bandit_files. apply flat_map_app. Qed.

Lemma find_bandit_files_cons (w : World) (t : string) (k : list string) :
  find_bandit_files w (t :: k) = find_bandit_files w [t] ++ find_bandit_files w k.
Proof. apply (find_bandit_files_app w [t] k). Qed.

(** X6: the walk counts files per target, not distinct paths: when two
    entries of the target list each lead to a .bandit file, discovery exits
    with 2, also when the two entries are the same directory or overlap and
    so lead to the very same file. *)
Theorem overlapping_targets_rejected (w : World) (ini_path : pyval)
    (l1 l2 l3 : list string) (t1 t2 : string)
    (Hpath : truthy ini_path = false)
    (H1 : find_bandit_files w [t1] <> [])
    (H2 : find_bandit_files w [t2] <> []) :
  outcome (_get_options_from_ini w ini_path (PList (l1 ++ t1 :: l2 ++ t2 :: l3)))
    = Exit 2.
Proof.
  rewrite (found_multiple w ini_path _ Hpath); [done|].
  rewrite find_bandit_files_app, (find_bandit_files_cons w t1),
    find_bandit_files_app, (find_bandit_files_cons w t2 l3), !length_app.
  destruct (find_bandit_files w [t1]); [done|].
  destruct (find_bandit_files w [t2]); [done|]. cbn [length]. lia.
Qed.

Lemma overlapping_targets_rejected_witness :
  outcome (_get_options_from_ini demo_world PNone (PList ["proj"; "proj"]))
    = Exit 2.
Proof.
  apply (overlapping_targets_rejected demo_world PNone [] [] [] "proj" "proj");
    [reflexivity | by vm_compute | by vm_compute].
Defined.

Lemma configure_skips_merge (w : World) (parsed : Namespace)
    (b_conf : BanditConfig) (opts : option (gmap string string))
    (Htemplate : template_without_custom parsed = false)
    (Hconfig : load_config w (config_file parsed) = inr b_conf)
    (Hini : outcome (_get_options_from_ini w (ini_path parsed) (targets parsed))
            = Ret opts)
    (Hempty : opts = None \/ opts = Some ∅) :
  outcome (configure w parsed) = Ret (b_conf, fold_levels parsed).
Proof.
  unfold configure. unfold template_without_custom in Htemplate.
  rewrite outcome_bind, Htemplate. cbn [mret M_ret outcome snd].
  rewrite outcome_bind.
  assert (outcome (if negb (is_none (no_line_numbers parsed))
                   then emit (SetEnv "BANDIT_NO_LINES"
                                (py_str (no_line_numbers parsed)))
                   else mret tt) = Ret tt) as ->.
  { by destruct (is_none (no_line_numbers parsed)). }
  rewrite outcome_bind, Hconfig. cbn [mret M_ret outcome snd ini_path targets].
  rewrite outcome_bind, Hini, outcome_bind.
  destruct Hempty as [-> | ->]; [done|].
  by rewrite bool_decide_eq_true_2.
Qed.

(** X7: when ini discovery returns nothing, or a file that could not be
    parsed, or one without any option, the options are left exactly as
    parsed (with the named levels folded in): no resolver call is made
    and nothing is normalised. *)
Theorem configure_without_ini_options (w : World) (parsed : Namespace)
    (b_conf : BanditConfig) (opts : option (gmap string string))
    (Htemplate : template_without_custom parsed = false)
    (Hconfig : load_config w (config_file parsed) = inr b_conf)
    (Hini : outcome (_get_options_from_ini w (ini_path parsed) (targets parsed))
            = Ret opts)
    (Hempty : opts = None \/ opts = Some ∅) :
  outcome (configure w parsed) = Ret (b_conf, fold_levels parsed).
Proof. by apply (configure_skips_merge w parsed b_conf opts). Qed.

Lemma configure_without_ini_options_witness :
  outcome (configure demo_world (demo_args ["lib"] PNone)) =
  Ret (demo_config, fold_levels (demo_args ["lib"] PNone)).
Proof.
  apply (configure_without_ini_options demo_world (demo_args ["lib"] PNone)
           demo_config None); [reflexivity | reflexivity | reflexivity | by left].
Defined.

(** ** The ini merge, option by option *)

Lemma resolver_absent (d a : pyval) (n : string) :
  is_none d = false -> outcome (_log_option_source d a PNone n) = Ret a.
Proof.
  intros Hd. rewrite _log_option_source_returns, Hd. by destruct (py_eq d a).
Qed.

Lemma resolver_overridden (d a i : pyval) (n : string) :
  is_none d = false -> py_eq d a = true -> truthy i = true ->
  outcome (_log_option_source d a i n) = Ret i.
Proof.
  intros Hd Ha Hi. by rewrite _log_option_source_returns, Hd, Ha, Hi.
Qed.

Lemma ini_number_absent (w : World) (opts : gmap string string) :
  opts !! "number" = None -> ini_number w opts = ([], Ret PNone).
Proof. intros Hk. unfold ini_number, dict_get. by rewrite Hk. Qed.

(** Closes a goal [field ns = field args] of the ini merge for a
    defaulted option whose key the ini file does not have. *)
Ltac absent_key :=
  let Hk := fresh "Hk" in
  intros Hk;
  match goal with
  | H : outcome (_log_option_source ?d ?a (dict_get _ _) ?n) = Ret ?v |- ?v = ?a =>
      unfold dict_get in H; rewrite Hk in H;
      rewrite (resolver_absent d a n eq_refl) in H; by injection H
  end.

(** X8: an option with a default is left as the command line has it when
    the ini file lacks its key, and this holds key by key, whatever else
    the ini file contains. *)
Theorem merge_keeps_defaulted_without_key (w : World) (args ns : Namespace)
    (opts : gmap string string)
    (Hmerge : outcome (merge_ini_options w args opts) = Ret ns) :
  (opts !! "exclude" = None -> excluded_paths ns = excluded_paths args) /\
  (opts !! "recursive" = None -> recursive ns = recursive args) /\
  (opts !! "aggregate" = None -> agg_type ns = agg_type args) /\
  (opts !! "number" = None -> context_lines ns = context_lines args) /\
  (opts !! "level" = None -> severity ns = severity args) /\
  (opts !! "confidence" = None -> confidence ns = confidence args) /\
  (opts !! "format" = None -> output_format ns = output_format args) /\
  (opts !! "output" = None -> output_file ns = output_file args) /\
  (opts !! "verbose" = None -> verbose ns = verbose args) /\
  (opts !! "debug" = None -> debug ns = debug args) /\
  (opts !! "quiet" = None -> quiet ns = quiet args) /\
  (opts !! "ignore-nosec" = None -> ignore_nosec ns = ignore_nosec args).
Proof.
  unfold merge_ini_options in Hmerge. bind_inv Hmerge. injection Hmerge as <-.
  cbn [excluded_paths recursive agg_type context_lines severity confidence
       output_format output_file verbose debug quiet ignore_nosec].
  repeat split; try absent_key.
  intros Hk.
  match goal with
  | Hn : outcome (ini_number _ _) = Ret ?num,
    H : outcome (_log_option_source ?d ?a ?num ?n) = Ret ?v |- ?v = ?a =>
      rewrite (ini_number_absent _ _ Hk) in Hn; injection Hn as <-;
      rewrite (resolver_absent d a n eq_refl) in H; by injection H
  end.
Qed.

Lemma merge_keeps_defaulted_without_key_witness :
  exists ns,
    outcome (merge_ini_options demo_world (demo_args ["proj"] PNone)
               {[ "no-line-numbers" := "1" ]}) = Ret ns /\
    quiet ns = PBool false /\ context_lines ns = PInt 3.
Proof.
  eexists. split; [reflexivity|].
  pose proof (merge_keeps_defaulted_without_key demo_world
                (demo_args ["proj"] PNone) _ {[ "no-line-numbers" := "1" ]}
                eq_refl)
    as (_ & _ & _ & Hnumber & _ & _ & _ & _ & _ & _ & Hquiet & _).
  split; [exact (Hquiet eq_refl) | exact (Hnumber eq_refl)].
Defined.

(** Closes a goal of the ini merge for a flag that the command line left
    off and the ini file sets to a non-empty string. *)
Ltac flag_key :=
  let s := fresh "s" in
  let Hk := fresh "Hk" in
  let Hs := fresh "Hs" in
  let Ha := fresh "Ha" in
  intros s Hk Hs Ha;
  match goal with
  | H : outcome (_log_option_source ?d _ (dict_get _ _) ?n) = Ret ?v
    |- ?v = _ /\ _ =>
      unfold dict_get in H; rewrite Hk, Ha in H;
      rewrite (resolver_overridden d (PBool false) (PStr s) n
                 eq_refl eq_refl (truthy_PStr s Hs)) in H;
      injection H as <-; split; [done | by apply truthy_PStr]
  end.

(** X9: the ini file can only switch a flag on: if the command line left
    a store-true flag off, any non-empty ini value for it, the strings
    "false", "no" and "0" included, is stored as the flag's value and
    counts as true from then on. *)
Theorem merge_flag_strings_are_true (w : World) (args ns : Namespace)
    (opts : gmap string string)
    (Hmerge : outcome (merge_ini_options w args opts) = Ret ns) :
  (forall s, opts !! "recursive" = Some s -> s <> "" ->
     recursive args = PBool false ->
     recursive ns = PStr s /\ truthy (recursive ns) = true) /\
  (forall s, opts !! "verbose" = Some s -> s <> "" ->
     verbose args = PBool false ->
     verbose ns = PStr s /\ truthy (verbose ns) = true) /\
  (forall s, opts !! "debug" = Some s -> s <> "" ->
     debug args = PBool false ->
     debug ns = PStr s /\ truthy (debug ns) = true) /\
  (forall s, opts !! "quiet" = Some s -> s <> "" ->
     quiet args = PBool false ->
     quiet ns = PStr s /\ truthy (quiet ns) = true) /\
  (forall s, opts !! "ignore-nosec" = Some s -> s <> "" ->
     ignore_nosec args = PBool false ->
     ignore_nosec ns = PStr s /\ truthy (ignore_nosec ns) = true).
Proof.
  unfold merge_ini_options in Hmerge. bind_inv Hmerge. injection Hmerge as <-.
  cbn [recursive verbose debug quiet ignore_nosec].
  split; [|split; [|split; [|split]]]; flag_key.
Qed.

Lemma merge_flag_strings_are_true_witness :
  exists ns,
    outcome (merge_ini_options demo_world (demo_args ["proj"] PNone)
               {[ "quiet" := "false" ]}) = Ret ns /\
    quiet ns = PStr "false" /\ truthy (quiet ns) = true.
Proof.
  eexists. split; [reflexivity|].
  pose proof (merge_flag_strings_are_true demo_world
                (demo_args ["proj"] PNone) _ {[ "quiet" := "false" ]} eq_refl)
    as (_ & _ & _ & Hquiet & _).
  apply (Hquiet "false"); [reflexivity | done | reflexivity].
Defined.

(** ** How a run ends *)

Section Exits.
Context {A B : Type} (S : Z -> Prop).

Lemma exits_only_bind (m : M A) (f : A -> M B) :
  exits_only S m -> (forall a, exits_only S (f a)) -> exits_only S (m ≫= f).
Proof.
  unfold exits_only. intros Hm Hf c. rewrite outcome_bind.
  destruct (outcome m) as [a|c'|e]; [apply Hf | by intros [= <-]; apply Hm | done].
Qed.

Lemma exits_only_mret (a : A) : exits_only S (mret a : M A).
Proof. by intros c. Qed.

Lemma exits_only_raise (e : exn) : exits_only S (raise e : M A).
Proof. by intros c. Qed.

Lemma exits_only_emit (e : event) : exits_only S (emit e).
Proof. by intros c. Qed.

Lemma exits_only_sys_exit (c : Z) : S c -> exits_only S (sys_exit c : M A).
Proof. by intros Hc c' [= <-]. Qed.

Lemma exits_only_try (body : M A) (handler : exn -> M A) :
  exits_only S body -> (forall e, exits_only S (handler e)) ->
  exits_only S (try_profile_errors body handler).
Proof.
  unfold exits_only. intros Hb Hh c. rewrite outcome_try_profile_errors.
  destruct (outcome body) as [a|c'|e] eqn:Hbody; [done | by intros [= <-]; apply Hb |].
  destruct e; try done; apply Hh.
Qed.
End Exits.

(** Decomposes a goal [exits_only S m] along the structure of [m]; what
    the conditions it branches on evaluate to is kept in the context. *)
Ltac exits_step :=
  match goal with
  | |- exits_only _ (mret _) => apply exits_only_mret
  | |- exits_only _ (raise _) => apply exits_only_raise
  | |- exits_only _ (emit _) => apply exits_only_emit
  | |- exits_only _ (sys_exit _) =>
      apply exits_only_sys_exit; first [reflexivity | solve [auto] | lia]
  | |- exits_only _ (_ ≫= _) => apply exits_only_bind; [|intros]
  | |- exits_only _ (try_profile_errors _ _) => apply exits_only_try; [|intros]
  | |- exits_only _ (if ?c then _ else _) => destruct c eqn:?
  | |- exits_only _ (match ?x with _ => _ end) => destruct x eqn:?
  | |- exits_only _ (let _ := _ in _) => cbv zeta
  end.

Ltac exits_tac := repeat exits_step.

Lemma _log_option_source_exits (S : Z -> Prop) d a i n :
  exits_only S (_log_option_source d a i n).
Proof. unfold _log_option_source. exits_tac. Qed.

Lemma merge_ini_options_exits (S : Z -> Prop) w args opts :
  exits_only S (merge_ini_options w args opts).
Proof.
  unfold merge_ini_options, ini_number, py_split.
  repeat first [apply _log_option_source_exits | exits_step].
Qed.

(** Before the options are resolved [main] exits with 2 or not at all. *)
Lemma configure_exits w parsed : exits_only (fun c => c = 2) (configure w parsed).
Proof.
  unfold configure, _get_options_from_ini, py_iter.
  repeat first [apply merge_ini_options_exits | exits_step].
Qed.

Lemma resolve_profile_exits w b_conf args :
  exits_only (fun c => c = 2) (resolve_profile w b_conf args).
Proof.
  unfold resolve_profile, profile_steps, _get_profile, _log_info,
    update_profile, py_split.
  exits_tac.
Qed.

(** ** The shape of a run *)

Lemma scan_events_quiet {A} (m : M A) : quiet_on scan_event m -> scan_events m = [].
Proof.
  unfold quiet_on, scan_events. induction 1 as [|e l He _ IH]; [done|].
  rewrite filter_cons_False; [done|]. by rewrite He.
Qed.

Lemma scan_events_bind {A B} (m : M A) (f : A -> M B) :
  scan_events (m ≫= f) =
  scan_events m ++ match outcome m with Ret a => scan_events (f a) | _ => [] end.
Proof.
  unfold scan_events. rewrite trace_bind, filter_app.
  by destruct (outcome m).
Qed.

Section Shape.
Context {A B : Type} (Q : list event -> result B -> Prop).

(** A step that makes no scan call and exits, if at all, with 2. *)
Lemma shape_bind_quiet (m : M A) (f : A -> M B) :
  quiet_on scan_event m ->
  exits_only (fun c => c = 2) m ->
  Q [] (Exit 2) -> (forall e, Q [] (Raise e)) ->
  (forall a, shape Q (f a)) ->
  shape Q (m ≫= f).
Proof.
  unfold shape. intros Hq He Q2 Qr Hf.
  rewrite scan_events_bind, outcome_bind, (scan_events_quiet m Hq).
  destruct (outcome m) as [a|c|e] eqn:Hm; [apply Hf | | apply Qr].
  by rewrite (He c Hm).
Qed.

(** A scan call. *)
Lemma shape_emit_scan (e : event) (f : unit -> M B) :
  scan_event e = true ->
  shape (fun l r => Q (e :: l) r) (f tt) ->
  shape Q (emit e ≫= f).
Proof.
  unfold shape. intros He Hf.
  rewrite scan_events_bind, outcome_bind. cbn [emit outcome snd].
  unfold scan_events at 1. cbn [emit trace fst].
  rewrite filter_cons_True by done. by rewrite filter_nil.
Qed.
End Shape.

(** Discharges the side conditions of [shape_bind_quiet] for the steps
    of [run]. *)
Ltac run_step_quiet :=
  solve [ unfold resolve_profile, profile_steps, _get_profile, _log_info,
            update_profile, py_split, init_logger_call, check_baseline,
            log_run_info,
            ranking_level, py_index;
          quiet_tac ].

Ltac run_step_exits :=
  solve [ unfold resolve_profile, profile_steps, _get_profile, _log_info,
            update_profile, py_split, init_logger_call, check_baseline,
            log_run_info,
            ranking_level, py_index;
          exits_tac ].

Ltac shape_step :=
  first
    [ apply shape_emit_scan; [reflexivity|]
    | apply shape_bind_quiet;
        [run_step_quiet | run_step_exits | by split; [|left] | by split | intros] ].

Lemma run_shape (w : World) (b_conf : BanditConfig) (args : Namespace) :
  shape run_ending (run w b_conf args).
Proof.
  unfold run. repeat shape_step.
  unfold shape, scan_events.
  destruct (_ && _); cbn [sys_exit trace outcome fst snd]; rewrite filter_nil;
    (split; [done|right; split; [auto|done]]).
Qed.

Lemma main_shape (w : World) (parsed : Namespace) :
  shape run_ending (main w parsed).
Proof.
  unfold main. apply shape_bind_quiet.
  - apply (quiet_on_weaken manager_call);
      [exact scan_event_manager_call | apply configure_quiet].
  - apply configure_exits.
  - by split; [|left].
  - by split.
  - intros [b_conf args]. apply run_shape.
Qed.

(** X10: [main] never falls off its end: every run ends by [sys.exit] or
    by an exception nobody catches, and the exit code is 0, 1 or 2. *)
Theorem main_exit_codes (w : World) (parsed : Namespace) :
  (forall a, outcome (main w parsed) <> Ret a) /\
  (forall c, outcome (main w parsed) = Exit c -> c = 0 \/ c = 1 \/ c = 2).
Proof.
  destruct (main_shape w parsed) as [_ Hend].
  destruct (outcome (main w parsed)) as [a|c|e]; [done| |done].
  split; [done|]. intros c' [= <-].
  destruct Hend as [[-> _]|[[-> | ->] _]]; auto.
Qed.

(** X11: whatever the run, the manager is asked to discover files, to run
    the tests and to write the report at most once each and in that order;
    a run that exits with 0 or 1 has done all three, a run that exits with
    2 has not written the report. *)
Theorem scan_calls_in_order (w : World) (parsed : Namespace) :
  scan_in_order (scan_events (main w parsed)) = true /\
  (forall c, outcome (main w parsed) = Exit c -> c <> 2 ->
     scan_complete (scan_events (main w parsed)) = true) /\
  (outcome (main w parsed) = Exit 2 ->
     scan_complete (scan_events (main w parsed)) = false).
Proof.
  destruct (main_shape w parsed) as [Horder Hend]. split; [done|].
  destruct (outcome (main w parsed)) as [a|c|e]; [done| |done].
  split.
  - intros c' [= <-] Hc. by destruct Hend as [[-> _]|[_ Hfull]].
  - intros [= ->]. destruct Hend as [[_ H]|[[H|H] _]]; done.
Qed.

Lemma scan_calls_in_order_witness :
  scan_complete (scan_events (main demo_world (demo_args ["lib"] PNone))) = true.
Proof.
  apply (proj1 (proj2 (scan_calls_in_order demo_world (demo_args ["lib"] PNone)))
           1); [reflexivity | done].
Defined.

Lemma exits_only_weaken {A} (S T : Z -> Prop) (m : M A) :
  (forall c, S c -> T c) -> exits_only S m -> exits_only T m.
Proof. intros HST Hm c Hc. by apply HST, Hm. Qed.

Lemma exits_only_bind_Ret {A B} (S : Z -> Prop) (m : M A) (f : A -> M B) :
  exits_only S m -> (forall a, outcome m = Ret a -> exits_only S (f a)) ->
  exits_only S (m ≫= f).
Proof.
  unfold exits_only. intros Hm Hf c. rewrite outcome_bind.
  destruct (outcome m) as [a|c'|e]; [by apply Hf | by intros [= <-]; apply Hm | done].
Qed.

Lemma run_exit_zero (w : World) (b_conf : BanditConfig) (args : Namespace) :
  truthy (exit_zero args) = true ->
  exits_only (fun c => c <> 1) (run w b_conf args).
Proof.
  intros Hzero.
  unfold run, resolve_profile, profile_steps, _get_profile, _log_info,
    update_profile, py_split, init_logger_call, check_baseline,
            log_run_info, ranking_level,
    py_index.
  exits_tac.
  all: match goal with
       | H : _ && negb (truthy (exit_zero _)) = true |- _ =>
           by rewrite Hzero, andb_false_r in H
       end.
Qed.

(** X12: when exit-zero is requested no run exits with code 1, whatever
    the scan finds. *)
Theorem exit_zero_never_exits_1 (w : World) (parsed : Namespace)
    (Hzero : truthy (exit_zero parsed) = true) :
  outcome (main w parsed) <> Exit 1.
Proof.
  assert (exits_only (fun c => c <> 1) (main w parsed)) as Hmain.
  { unfold main. apply exits_only_bind_Ret.
    - apply (exits_only_weaken (fun c => c = 2)); [by intros c ->|].
      apply configure_exits.
    - intros [b_conf args] Hconf. apply run_exit_zero.
      by rewrite (configure_keeps _ _ _ _ Hconf). }
  intros Hexit. by apply (Hmain 1).
Qed.

Lemma exit_zero_never_exits_1_witness :
  outcome (main demo_world (with_exit_zero (demo_args ["lib"] PNone))) <> Exit 1.
Proof.
  apply (exit_zero_never_exits_1 demo_world
           (with_exit_zero (demo_args ["lib"] PNone))).
  reflexivity.
Defined.

(** ** The fatal checks one by one *)

(** X13: a message template without the custom formatter is rejected
    before anything else is done: the parser's error is the only effect of
    the run, the environment is not written and no configuration or ini
    file is looked at. *)
Theorem template_rejected_first (w : World) (parsed : Namespace)
    (Htemplate : template_without_custom parsed = true) :
  main w parsed =
  ([ParserError "--msg-template can only be used with --format=custom"], Exit 2).
Proof.
  unfold main, configure. unfold template_without_custom in Htemplate.
  by rewrite Htemplate.
Qed.

Lemma template_rejected_first_witness :
  main demo_world
    {| targets := PList ["lib"]; recursive := PBool false;
       agg_type := PStr "file"; context_lines := PInt 3;
       config_file := PNone; profile := PNone; tests := PNone; skips := PNone;
       severity := PInt 1; severity_string := PNone;
       confidence := PInt 1; confidence_string := PNone;
       output_format := PStr "txt"; msg_template := PStr "{msg}";
       output_file := sys_stdout; verbose := PBool false;
       debug := PBool false; quiet := PBool false; ignore_nosec := PBool false;
       excluded_paths := PStr ""; baseline := PNone; ini_path := PNone;
       exit_zero := PBool false; no_line_numbers := PBool false |} =
  ([ParserError "--msg-template can only be used with --format=custom"], Exit 2).
Proof. by apply template_rejected_first. Defined.

Lemma run_no_targets (w : World) (b_conf : BanditConfig) (args : Namespace) :
  truthy (targets args) = false -> run w b_conf args = ([PrintUsage], Exit 2).
Proof. intros Htargets. unfold run. by rewrite Htargets. Qed.

Lemma configure_no_targets (w : World) (parsed : Namespace) :
  targets parsed = PList [] -> truthy (ini_path parsed) = false ->
  outcome (configure w parsed) = Exit 2 \/
  exists b_conf,
    template_without_custom parsed = false /\
    load_config w (config_file parsed) = inr b_conf /\
    outcome (configure w parsed) = Ret (b_conf, fold_levels parsed).
Proof.
  intros Htargets Hini.
  destruct (template_without_custom parsed) eqn:Htemplate.
  { left. unfold configure. unfold template_without_custom in Htemplate.
    by rewrite outcome_bind, Htemplate. }
  destruct (load_config w (config_file parsed)) as [msg|b_conf] eqn:Hconfig.
  { left. unfold configure. unfold template_without_custom in Htemplate.
    rewrite outcome_bind, Htemplate. cbn [mret M_ret outcome snd].
    rewrite outcome_bind.
    destruct (negb (is_none (no_line_numbers parsed)));
      cbn [emit mret M_ret outcome snd]; by rewrite outcome_bind, Hconfig. }
  right. exists b_conf. split; [done|]. split; [done|].
  apply (configure_skips_merge w parsed b_conf None); [done..| |by left].
  by rewrite Htargets, (found_none w _ [] Hini).
Qed.

(** X14: without a target on the command line and without an explicit ini
    path the run exits with 2 and never touches the scan manager: no ini
    file is searched for (there is nowhere to search), so nothing can
    supply targets, and once the configuration has loaded the last thing
    the run does is to print the usage text. *)
Theorem no_targets_usage (w : World) (parsed : Namespace)
    (Htargets : targets parsed = PList [])
    (Hini : truthy (ini_path parsed) = false) :
  outcome (main w parsed) = Exit 2 /\
  quiet_on manager_call (main w parsed) /\
  (forall b_conf,
     template_without_custom parsed = false ->
     load_config w (config_file parsed) = inr b_conf ->
     last (trace (main w parsed)) = Some PrintUsage).
Proof.
  assert (forall b_conf args,
            outcome (configure w parsed) = Ret (b_conf, args) ->
            run w b_conf args = ([PrintUsage], Exit 2)) as Hrun.
  { intros b_conf args Hconf.
    destruct (configure_no_targets w parsed Htargets Hini)
      as [Hexit|(b & _ & _ & Hret)]; [congruence|].
    rewrite Hret in Hconf. injection Hconf as <- <-.
    apply run_no_targets. cbn [fold_levels targets]. by rewrite Htargets. }
  split; [|split].
  - unfold main. rewrite outcome_bind.
    destruct (outcome (configure w parsed)) as [[b_conf args]|c|e] eqn:Hconf.
    + by rewrite (Hrun _ _ eq_refl).
    + by rewrite (configure_exits w parsed c Hconf).
    + destruct (configure_no_targets w parsed Htargets Hini)
        as [Hexit|(b & _ & _ & Hret)]; congruence.
  - apply quiet_on_main; [done|]. intros b_conf args Hconf.
    rewrite (Hrun _ _ Hconf). by repeat constructor.
  - intros b_conf Htemplate Hconfig.
    destruct (configure_no_targets w parsed Htargets Hini)
      as [Hexit|(b & _ & _ & Hret)].
    + rewrite (configure_skips_merge w parsed b_conf None) in Hexit;
        [done..| |by left].
      by rewrite Htargets, (found_none w _ [] Hini).
    + destruct (main_of_configure _ _ _ _ Hret) as [_ ->].
      rewrite (Hrun _ _ Hret). apply last_snoc.
Qed.

Lemma no_targets_usage_witness :
  outcome (main demo_world (demo_args [] PNone)) = Exit 2 /\
  last (trace (main demo_world (demo_args [] PNone))) = Some PrintUsage.
Proof.
  pose proof (no_targets_usage demo_world (demo_args [] PNone) eq_refl eq_refl)
    as (Hexit & _ & Hlast).
  split; [exact Hexit | exact (Hlast demo_config eq_refl eq_refl)].
Defined.

Lemma M_eta {A} (m : M A) : m = (trace m, outcome m).
Proof. by destruct m. Qed.

Lemma manager_call_id (e : event) : manager_call e = true -> manager_call e = true.
Proof. done. Qed.

(** [run] up to profile resolution, when that exits. *)
Lemma run_stops_at_profile (w : World) (b_conf : BanditConfig) (args : Namespace)
    (t : list event) :
  log_format_ok w b_conf = true ->
  truthy (targets args) = true ->
  resolve_profile w b_conf args = (t, Exit 2) ->
  run w b_conf args = (logger_setup b_conf args ++ t, Exit 2).
Proof.
  intros Hlog Htargets Hprofile. rewrite (M_eta (run w b_conf args)).
  unfold log_format_ok in Hlog. apply negb_true_iff in Hlog.
  unfold run, logger_setup.
  rewrite (init_logger_call_accepted w DEBUG _ Hlog).
  rewrite (init_logger_call_accepted w WARNING None eq_refl).
  rewrite !trace_bind, !outcome_bind, Htargets, Hprofile.
  destruct (truthy (of_option_str (cfg_log_format b_conf))),
    (truthy (quiet args));
    cbn [negb emit mret M_ret trace outcome fst snd app];
    by rewrite ?app_nil_r.
Qed.

(** X15: a profile name that the configuration does not define makes the
    try block log the ProfileNotFound error, carrying the configuration
    path and the name, and exit with 2; the scan manager is never
    constructed, and unless the configured log format is one the logger
    refuses (the run then dies before the try block) the run exits with
    code 2, that error being the last thing logged when there are
    targets. *)
Theorem unknown_profile_exits (w : World) (b_conf : BanditConfig)
    (args : Namespace) (name : string)
    (Hprofile : profile args = PStr name)
    (Hname : name <> "")
    (Hunknown : profiles_of b_conf !! name = None) :
  resolve_profile w b_conf args =
    ([LogObj ERROR (AExn (ProfileNotFound (config_file args) (PStr name)))],
     Exit 2) /\
  quiet_on manager_call (run w b_conf args) /\
  (log_format_ok w b_conf = true ->
   outcome (run w b_conf args) = Exit 2 /\
   (truthy (targets args) = true ->
    last (trace (run w b_conf args)) =
    Some (LogObj ERROR (AExn (ProfileNotFound (config_file args) (PStr name)))))).
Proof.
  assert (resolve_profile w b_conf args =
          ([LogObj ERROR (AExn (ProfileNotFound (config_file args) (PStr name)))],
           Exit 2)) as Hres.
  { unfold resolve_profile, profile_steps, _get_profile.
    unfold profiles_of in Hunknown.
    by rewrite Hprofile, truthy_PStr, Hunknown. }
  split; [done|]. split.
  - unfold quiet_on. apply Forall_forall. intros e Hin.
    destruct (manager_call e) eqn:He; [exfalso|done].
    unfold run in Hin.
    repeat (apply (elem_of_trace_bind_quiet manager_call) in Hin
              as (? & ? & Hin & _ & _);
            [|exact He|scan_quiet manager_call_id]).
    match goal with
    | H : outcome (resolve_profile w b_conf args) = Ret _ |- _ =>
        by rewrite Hres in H
    end.
  - intros Hlog. destruct (truthy (targets args)) eqn:Htargets.
    + rewrite (run_stops_at_profile w b_conf args _ Hlog Htargets Hres).
      split; [done|]. intros _. apply last_snoc.
    + by rewrite (run_no_targets w b_conf args Htargets).
Qed.

Lemma unknown_profile_exits_witness :
  outcome (run demo_world demo_config
             (with_profile (PStr "strict") (demo_args ["lib"] PNone)))
  = Exit 2.
Proof.
  pose proof (unknown_profile_exits demo_world demo_config
                (with_profile (PStr "strict") (demo_args ["lib"] PNone)) "strict"
                eq_refl ltac:(done) eq_refl) as (_ & _ & Hexit).
  exact (proj1 (Hexit eq_refl)).
Defined.

(** [run] when the baseline block exits: nothing of the scan happens. *)
Lemma run_stops_at_baseline (w : World) (b_conf : BanditConfig) (args : Namespace) :
  str_or_none (profile args) = true ->
  str_or_none (tests args) = true ->
  str_or_none (skips args) = true ->
  outcome (check_baseline w args) = Exit 2 ->
  quiet_on scan_event (run w b_conf args) /\
  (log_format_ok w b_conf = true -> outcome (run w b_conf args) = Exit 2).
Proof.
  intros Hp Ht Hs Hgate. split.
  - unfold quiet_on. apply Forall_forall. intros e Hin.
    destruct (scan_event e) eqn:He; [exfalso|done].
    unfold run in Hin.
    repeat (apply (elem_of_trace_bind_quiet scan_event) in Hin
              as (? & ? & Hin & _ & _);
            [|exact He|scan_quiet scan_event_manager_call]).
    congruence.
  - intros Hlog.
    destruct (logger_steps_return w b_conf args Hlog) as [Hfirst Hsecond].
    unfold run. rewrite outcome_bind.
    destruct (negb (truthy (targets args))); [done|].
    cbn [mret M_ret outcome snd].
    rewrite outcome_bind, Hfirst, outcome_bind, Hsecond, outcome_bind.
    destruct (resolve_profile_typed w b_conf args Hp Ht Hs) as [->|[p ->]];
      [done|].
    rewrite outcome_bind. cbn [emit outcome snd].
    by rewrite outcome_bind, Hgate.
Qed.

Lemma is_baseline_call_manager_call (e : event) :
  is_baseline_call e = true -> manager_call e = true.
Proof. by destruct e. Qed.

(** X16: when opening or reading the baseline fails with an OSError the
    baseline block logs one warning naming the path and exits with 2:
    nothing is handed to the manager as a baseline, no file is discovered,
    no test run and no report written, and unless the configured log
    format is one the logger refuses (the run then dies before the
    baseline block) the run exits with code 2. *)
Theorem unreadable_baseline_exits (w : World) (b_conf : BanditConfig)
    (args : Namespace)
    (Hprofile : str_or_none (profile args) = true)
    (Htests : str_or_none (tests args) = true)
    (Hskips : str_or_none (skips args) = true)
    (Hbaseline : is_none (baseline args) = false)
    (Hread : read_file w (baseline args) = ReadOSError) :
  check_baseline w args =
    ([Log WARNING "Could not open baseline report: %s" [AVal (baseline args)]],
     Exit 2) /\
  quiet_on scan_event (run w b_conf args) /\
  quiet_on is_baseline_call (run w b_conf args) /\
  (log_format_ok w b_conf = true -> outcome (run w b_conf args) = Exit 2).
Proof.
  assert (check_baseline w args =
          ([Log WARNING "Could not open baseline report: %s"
              [AVal (baseline args)]], Exit 2)) as Hcheck.
  { unfold check_baseline. by rewrite Hbaseline, Hread. }
  split; [done|].
  destruct (run_stops_at_baseline w b_conf args Hprofile Htests Hskips)
    as [Hquiet Hexit]; [by rewrite Hcheck|].
  split; [done|]. split; [|done].
  unfold quiet_on. apply Forall_forall. intros e Hin.
  destruct (is_baseline_call e) eqn:He; [exfalso|done].
  unfold run in Hin.
  repeat (apply (elem_of_trace_bind_quiet is_baseline_call) in Hin
            as (? & ? & Hin & _ & _);
          [|exact He|scan_quiet is_baseline_call_manager_call]).
  rewrite trace_bind, Hcheck in Hin. cbn [trace outcome fst snd app] in Hin.
  apply list_elem_of_singleton in Hin. by subst e.
Qed.

Lemma unreadable_baseline_exits_witness :
  outcome (run demo_world demo_config (demo_args ["lib"] (PStr "gone.json")))
    = Exit 2 /\
  quiet_on is_baseline_call
    (run demo_world demo_config (demo_args ["lib"] (PStr "gone.json"))).
Proof.
  pose proof (unreadable_baseline_exits demo_world demo_config
                (demo_args ["lib"] (PStr "gone.json"))
                eq_refl eq_refl eq_refl eq_refl eq_refl)
    as (_ & _ & Hquiet & Hexit).
  split; [exact (Hexit eq_refl) | exact Hquiet].
Defined.

(** ** What the ini file can and cannot supply *)

Lemma ini_targets_value (opts : gmap string string) (v : pyval) :
  outcome (let ini_targets := dict_get opts "targets" in
           if truthy ini_targets
           then l ← py_split ini_targets; mret (PList l)
           else mret ini_targets) = Ret v ->
  v = match opts !! "targets" with
      | Some s => if bool_decide (s = "") then PStr "" else PList (split_on comma s)
      | None => PNone
      end.
Proof.
  cbv zeta. unfold dict_get.
  destruct (opts !! "targets") as [s|]; [|by intros [= <-]].
  cbn [truthy]. destruct (bool_decide (s = "")) eqn:Hs.
  - apply bool_decide_eq_true_1 in Hs as ->. by intros [= <-].
  - by intros [= <-].
Qed.

(** X17: targets on the command line always win; only when there are none
    does the ini file supply them, split at the commas; with neither, the
    targets become None (and the run prints the usage text). *)
Theorem merge_targets (w : World) (args ns : Namespace)
    (opts : gmap string string) (ts : list string)
    (Hmerge : outcome (merge_ini_options w args opts) = Ret ns)
    (Htargets : targets args = PList ts) :
  (ts <> [] -> targets ns = PList ts) /\
  (forall s, ts = [] -> opts !! "targets" = Some s -> s <> "" ->
     targets ns = PList (split_on comma s)) /\
  (ts = [] -> opts !! "targets" = None \/ opts !! "targets" = Some "" ->
     targets ns = PNone /\ truthy (targets ns) = false).
Proof.
  unfold merge_ini_options in Hmerge. bind_inv Hmerge. injection Hmerge as <-.
  cbn [targets].
  match goal with
  | H : outcome (_log_option_source default_targets _ ?i _) = Ret ?v |- _ =>
      match goal with
      | Hi : outcome _ = Ret i |- _ => apply ini_targets_value in Hi
      end;
      rewrite _log_option_source_returns, Htargets in H;
      cbn [default_targets is_none truthy] in H; injection H as <-
  end.
  split; [|split].
  - intros Hts. by rewrite bool_decide_eq_false_2.
  - intros s -> Hs Hne. subst. rewrite Hs.
    rewrite (bool_decide_eq_false_2 (s = "")) by done.
    cbn [truthy negb].
    destruct (split_on comma s) eqn:Hsplit; [|done].
    by destruct s as [|c s]; [|cbn in Hsplit; destruct (Ascii.eqb c comma);
                                [|destruct (split_on comma s)]].
  - intros -> [Hk|Hk]; subst; rewrite Hk; done.
Qed.

Lemma merge_targets_witness :
  exists ns,
    outcome (merge_ini_options demo_world (demo_args [] PNone)
               {[ "targets" := "proj,lib" ]}) = Ret ns /\
    targets ns = PList ["proj"; "lib"].
Proof.
  eexists. split; [reflexivity|].
  pose proof (merge_targets demo_world (demo_args [] PNone) _
                {[ "targets" := "proj,lib" ]} [] eq_refl eq_refl)
    as (_ & Hini & _).
  exact (Hini "proj,lib" eq_refl eq_refl ltac:(done)).
Defined.

Lemma scan_complete_report (l : list event) :
  scan_complete l = true -> exists o, o ∈ l /\ is_report o = true.
Proof.
  destruct l as [|d [|r [|o [|x l]]]]; try done. cbn [scan_complete].
  intros [_ Ho]%andb_true_iff. exists o. split; [|done].
  by repeat constructor.
Qed.

(** A run whose resolved severity is a string: the lookup of the
    severity label raises TypeError right after the tests have run. *)
Lemma run_string_severity (w : World) (b_conf : BanditConfig) (args : Namespace)
    (s : string) :
  severity args = PStr s ->
  quiet_on is_report (run w b_conf args) /\
  exits_only (fun c => c = 2) (run w b_conf args) /\
  (forall e, is_execution e = true -> e ∈ trace (run w b_conf args) ->
     outcome (run w b_conf args) = Raise TypeError).
Proof.
  intros Hsev.
  assert (quiet_on is_report (run w b_conf args)) as Hquiet.
  { unfold quiet_on. apply Forall_forall. intros e Hin.
    destruct (is_report e) eqn:He; [exfalso|done].
    unfold run in Hin.
    repeat (apply (elem_of_trace_bind_quiet is_report) in Hin
              as (? & ? & Hin & _ & _); [|exact He|report_quiet]).
    match goal with
    | H : outcome (ranking_level (severity args)) = Ret _ |- _ =>
        by rewrite Hsev in H
    end. }
  split; [done|]. split.
  - intros c Hc. destruct (run_shape w b_conf args) as [_ Hend].
    rewrite Hc in Hend. destruct Hend as [[-> _]|[_ Hfull]]; [done|exfalso].
    apply scan_complete_report in Hfull as (o & Ho & Hreport).
    unfold scan_events in Ho. apply list_elem_of_filter in Ho as [_ Ho].
    unfold quiet_on in Hquiet. rewrite Forall_forall in Hquiet.
    apply Hquiet in Ho. congruence.
  - intros e He Hin. unfold run in *.
    repeat (apply (elem_of_trace_bind_quiet is_execution) in Hin
              as (? & _ & Hin & -> & _);
            [|exact He|scan_quiet is_execution_manager_call]).
    do 3 (rewrite outcome_bind; cbn [emit outcome snd]).
    by rewrite outcome_bind, Hsev.
Qed.

(** X18: a severity level in the ini file breaks the report: when the
    command line leaves the severity at its default, a non-empty [level]
    entry is stored as the severity, as a string; every run with it that
    gets as far as executing the tests then ends with an uncaught TypeError
    at the lookup of the severity label, so no report is ever written and
    the run never exits with 0 or 1. *)
Theorem ini_level_breaks_report (w : World) (args ns : Namespace)
    (opts : gmap string string) (s : string)
    (Hmerge : outcome (merge_ini_options w args opts) = Ret ns)
    (Hdefault : severity args = default_severity)
    (Hlevel : opts !! "level" = Some s)
    (Hs : s <> "") :
  severity ns = PStr s /\
  (forall b_conf,
     quiet_on is_report (run w b_conf ns) /\
     exits_only (fun c => c = 2) (run w b_conf ns) /\
     (forall e, is_execution e = true -> e ∈ trace (run w b_conf ns) ->
        outcome (run w b_conf ns) = Raise TypeError)).
Proof.
  assert (severity ns = PStr s) as Hsev.
  { unfold merge_ini_options in Hmerge. bind_inv Hmerge.
    injection Hmerge as <-. cbn [severity].
    match goal with
    | H : outcome (_log_option_source default_severity _ _ _) = Ret ?v |- ?v = _ =>
        unfold dict_get in H; rewrite Hlevel, Hdefault in H;
        rewrite (resolver_overridden default_severity default_severity (PStr s) _
                   eq_refl eq_refl (truthy_PStr s Hs)) in H;
        by injection H
    end. }
  split; [done|]. intros b_conf. by apply (run_string_severity w b_conf ns s).
Qed.

Lemma ini_level_breaks_report_witness :
  exists ns,
    outcome (merge_ini_options demo_world (demo_args ["lib"] PNone)
               {[ "level" := "3" ]}) = Ret ns /\
    severity ns = PStr "3" /\
    outcome (run demo_world demo_config ns) = Raise TypeError.
Proof.
  eexists. split; [reflexivity|].
  pose proof (ini_level_breaks_report demo_world (demo_args ["lib"] PNone) _
                {[ "level" := "3" ]} "3" eq_refl eq_refl eq_refl ltac:(done))
    as (Hsev & Hrun).
  split; [exact Hsev|].
  destruct (Hrun demo_config) as (_ & _ & Hraise).
  apply (Hraise RunTests eq_refl).
  apply list_elem_of_In. vm_compute. repeat first [left; reflexivity | right].
Defined.

(** ** The logger *)

Lemma _init_logger_config (accepts : string -> bool) (d : string)
    (lvl : loglevel) (fmt : option string) (LOG : Logger) :
  formatter_rejects accepts fmt = false ->
  (_init_logger accepts d lvl fmt LOG).2 = Ret tt /\
  lg_handlers (_init_logger accepts d lvl fmt LOG).1 = [handler_for d fmt] /\
  lg_level (_init_logger accepts d lvl fmt LOG).1 = lvl /\
  lg_capture_warnings (_init_logger accepts d lvl fmt LOG).1 = true /\
  lg_written (_init_logger accepts d lvl fmt LOG).1 =
    lg_written LOG ++
    (if bool_decide (lvl = DEBUG)
     then [(handler_for d fmt, "logging initialized")] else []).
Proof.
  intros Hok. unfold _init_logger, logger_log, handler_for. rewrite Hok.
  destruct fmt as [f|]; cbn [of_option_str truthy];
    try destruct (bool_decide (f = "")); by destruct lvl; rewrite ?app_nil_r.
Qed.

Lemma _init_logger_refused (accepts : string -> bool) (d : string)
    (lvl : loglevel) (fmt : option string) (LOG : Logger) :
  formatter_rejects accepts fmt = true ->
  _init_logger accepts d lvl fmt LOG =
    ({| lg_handlers := []; lg_level := lvl; lg_capture_warnings := true;
        lg_written := lg_written LOG |},
     Raise (ValueError "Invalid format for '%' style")).
Proof. intros Hno. unfold _init_logger. by rewrite Hno. Qed.

Lemma init_logger_written (accepts : string -> bool) (d : string)
    (calls : list (loglevel * option string)) (LOG : Logger) :
  Forall (fun c => formatter_rejects accepts c.2 = false) calls ->
  length (lg_written
            (fold_left (fun L c => (_init_logger accepts d c.1 c.2 L).1)
               calls LOG)) =
  (length (lg_written LOG) + length (filter (fun c => c.1 = DEBUG) calls))%nat.
Proof.
  intros Hcalls. revert LOG.
  induction Hcalls as [|[l f] calls Hc _ IH]; intros LOG.
  - cbn. lia.
  - cbn [fold_left fst snd]. rewrite IH.
    destruct (_init_logger_config accepts d l f LOG Hc) as (_ & _ & _ & _ & ->).
    rewrite length_app.
    destruct (decide (l = DEBUG)) as [->|Hl].
    + rewrite filter_cons_True by done.
      rewrite bool_decide_eq_true_2 by done. cbn [length]. lia.
    + rewrite filter_cons_False by done.
      rewrite bool_decide_eq_false_2 by done. cbn [length]. lia.
Qed.

(** X19: after any number of initialisations that returned, one more
    leaves the logger at the level of that last call, and: if its format
    is one the formatter takes (or none, or an empty one, which select the
    default format), the call returns and the logger has exactly one
    handler, that of the last call, with the "logging initialized" line
    written once per call at DEBUG level and not at all for the others
    (no call writes through handlers installed by earlier calls); if the
    formatter refuses the format, the call raises ValueError and leaves
    the logger with no handler at all and nothing more written. *)
Theorem init_logger_sequence (accepts : string -> bool) (d : string)
    (calls : list (loglevel * option string))
    (lvl : loglevel) (fmt : option string) (LOG : Logger)
    (Hcalls : Forall (fun c => formatter_rejects accepts c.2 = false) calls) :
  let LOG0 := fold_left (fun L c => (_init_logger accepts d c.1 c.2 L).1)
                calls LOG in
  let last_call := _init_logger accepts d lvl fmt LOG0 in
  lg_level last_call.1 = lvl /\
  (formatter_rejects accepts fmt = false ->
   last_call.2 = Ret tt /\
   lg_handlers last_call.1 = [handler_for d fmt] /\
   length (lg_written last_call.1) =
     (length (lg_written LOG)
      + length (filter (fun c => c.1 = DEBUG) (calls ++ [(lvl, fmt)])))%nat) /\
  (formatter_rejects accepts fmt = true ->
   last_call.2 = Raise (ValueError "Invalid format for '%' style") /\
   lg_handlers last_call.1 = [] /\
   length (lg_written last_call.1) =
     (length (lg_written LOG)
      + length (filter (fun c => c.1 = DEBUG) calls))%nat).
Proof.
  cbn zeta.
  pose proof (init_logger_written accepts d calls LOG Hcalls) as Hlen.
  set (LOG0 := fold_left _ calls LOG) in *.
  destruct (formatter_rejects accepts fmt) eqn:Hfmt.
  - rewrite (_init_logger_refused accepts d lvl fmt LOG0 Hfmt).
    cbn [fst snd lg_level lg_handlers lg_written].
    split; [done|]. split; [done|]. by intros _.
  - destruct (_init_logger_config accepts d lvl fmt LOG0 Hfmt)
      as (-> & -> & -> & _ & ->).
    split; [done|]. split; [|done]. intros _.
    split; [done|]. split; [done|].
    rewrite filter_app, !length_app, Hlen.
    destruct (decide (lvl = DEBUG)) as [->|Hl].
    + rewrite filter_cons_True by done.
      rewrite bool_decide_eq_true_2 by done. rewrite filter_nil.
      cbn [length]. lia.
    + rewrite filter_cons_False by done.
      rewrite bool_decide_eq_false_2 by done. rewrite filter_nil.
      cbn [length]. lia.
Qed.

Lemma init_logger_sequence_witness :
  let accepts := fun f => negb (bool_decide (f = "plain text")) in
  let LOG := {| lg_handlers := []; lg_level := WARNING;
                lg_capture_warnings := false; lg_written := [] |} in
  let LOG0 := fold_left (fun L c => (_init_logger accepts "[%(module)s]" c.1 c.2 L).1)
                [(INFO, None); (DEBUG, Some "%(message)s")] LOG in
  (_init_logger accepts "[%(module)s]" WARNING (Some "plain text") LOG0).2
    = Raise (ValueError "Invalid format for '%' style") /\
  lg_handlers
    (_init_logger accepts "[%(module)s]" WARNING (Some "plain text") LOG0).1 = [] /\
  lg_handlers (_init_logger accepts "[%(module)s]" DEBUG None LOG0).1
    = [{| h_stream := "stderr"; h_format := "[%(module)s]" |}].
Proof.
  cbn zeta.
  pose proof (init_logger_sequence
                (fun f => negb (bool_decide (f = "plain text"))) "[%(module)s]"
                [(INFO, None); (DEBUG, Some "%(message)s")]
                WARNING (Some "plain text")
                {| lg_handlers := []; lg_level := WARNING;
                   lg_capture_warnings := false; lg_written := [] |}
                ltac:(repeat constructor)) as (_ & _ & Hrefused).
  pose proof (init_logger_sequence
                (fun f => negb (bool_decide (f = "plain text"))) "[%(module)s]"
                [(INFO, None); (DEBUG, Some "%(message)s")]
                DEBUG None
                {| lg_handlers := []; lg_level := WARNING;
                   lg_capture_warnings := false; lg_written := [] |}
                ltac:(repeat constructor)) as (_ & Haccepted & _).
  destruct (Hrefused eq_refl) as (Hraise & Hnone & _).
  destruct (Haccepted eq_refl) as (_ & Hone & _).
  split; [exact Hraise|]. split; [exact Hnone | exact Hone].
Defined.

(** X20: the first initialisation in [main], which names no format and
    so always returns, is at DEBUG level exactly when the token -d or
    --debug occurs in the raw command line, and only then is the
    "logging initialized" line written. *)
Theorem early_debug_logging (accepts : string -> bool) (d : string)
    (argv : list string) (LOG : Logger) :
  (lg_level (_init_logger accepts d (early_log_level argv) None LOG).1 = DEBUG
   <-> "-d" ∈ argv \/ "--debug" ∈ argv) /\
  (lg_written (_init_logger accepts d (early_log_level argv) None LOG).1 =
     lg_written LOG ++ [(handler_for d None, "logging initialized")]
   <-> "-d" ∈ argv \/ "--debug" ∈ argv) /\
  (~ ("-d" ∈ argv \/ "--debug" ∈ argv) ->
   lg_level (_init_logger accepts d (early_log_level argv) None LOG).1 = INFO /\
   lg_written (_init_logger accepts d (early_log_level argv) None LOG).1
     = lg_written LOG) /\
  (_init_logger accepts d (early_log_level argv) None LOG).2 = Ret tt.
Proof.
  destruct (_init_logger_config accepts d (early_log_level argv) None LOG eq_refl)
    as (-> & _ & -> & _ & ->).
  destruct (decide ("-d" ∈ argv \/ "--debug" ∈ argv)) as [Hflag|Hflag].
  - assert (early_log_level argv = DEBUG) as ->.
    { unfold early_log_level. destruct Hflag as [Hd|Hd].
      - by rewrite (bool_decide_eq_true_2 _ Hd).
      - by rewrite (bool_decide_eq_true_2 _ Hd), orb_true_r. }
    by rewrite bool_decide_eq_true_2.
  - assert (early_log_level argv = INFO) as ->.
    { unfold early_log_level.
      rewrite !bool_decide_eq_false_2; [done|tauto..]. }
    rewrite bool_decide_eq_false_2 by done. rewrite app_nil_r.
    split; [done|]. split; [|done]. split; [|done].
    intros Heq. apply (f_equal length) in Heq. rewrite length_app in Heq.
    cbn [length] in Heq. lia.
Qed.

Lemma fold_left_reinitialise_quiet (accepts : string -> bool) (d : string)
    (t : list event) (LOG : Logger) :
  Forall (fun e => is_initlogger e = false) t ->
  fold_left (reinitialise accepts d) t LOG = LOG.
Proof.
  intros Ht. revert LOG. induction Ht as [|e t He _ IH]; intros LOG; [done|].
  cbn [fold_left]. rewrite <- (IH LOG) at 2. f_equal. by destruct e.
Qed.

(** Discharges [quiet_on is_initlogger] for the steps of [run] from
    profile resolution on. *)
Ltac logger_quiet :=
  solve [ unfold resolve_profile, profile_steps, _get_profile, _log_info,
            update_profile, py_split, check_baseline, log_run_info,
            ranking_level, py_index;
          quiet_tac ].

(** With a log format the logger takes, the trace of [run] starts with
    the logger reinitialisations and has none after them. *)
Lemma run_logger_setup (w : World) (b_conf : BanditConfig) (args : Namespace) :
  truthy (targets args) = true ->
  log_format_ok w b_conf = true ->
  exists tail,
    trace (run w b_conf args) = logger_setup b_conf args ++ tail /\
    Forall (fun e => is_initlogger e = false) tail.
Proof.
  intros Htargets Hlog%negb_true_iff. unfold run, logger_setup.
  rewrite trace_bind, Htargets. cbn [negb mret M_ret trace outcome fst snd app].
  rewrite trace_bind.
  rewrite (init_logger_call_accepted w DEBUG _ Hlog).
  rewrite (init_logger_call_accepted w WARNING None eq_refl).
  assert (forall m : M unit,
            quiet_on is_initlogger m ->
            Forall (fun e => is_initlogger e = false) (trace m)) as Hq by done.
  destruct (truthy (of_option_str (cfg_log_format b_conf)));
    cbn [mret M_ret trace outcome fst snd app];
    rewrite trace_bind;
    destruct (truthy (quiet args));
    cbn [mret M_ret trace outcome fst snd app];
    eexists; (split; [reflexivity|]); apply Hq;
    (apply quiet_on_bind; [logger_quiet|intros]); quiet_tac; logger_quiet.
Qed.

(** With a log format the logger refuses, [run] ends at the first
    reinitialisation. *)
Lemma run_refused_format (w : World) (b_conf : BanditConfig) (args : Namespace) :
  truthy (targets args) = true ->
  log_format_ok w b_conf = false ->
  run w b_conf args =
    ([InitLogger DEBUG (cfg_log_format b_conf)],
     Raise (ValueError "Invalid format for '%' style")).
Proof.
  intros Htargets Hlog%negb_false_iff. unfold run.
  rewrite Htargets. cbn [negb].
  assert (truthy (of_option_str (cfg_log_format b_conf)) = true) as ->.
  { destruct (cfg_log_format b_conf) as [f|]; [|done].
    cbn [formatter_rejects] in Hlog. apply andb_true_iff in Hlog as [Hne _].
    cbn [of_option_str truthy]. exact Hne. }
  unfold init_logger_call. by rewrite Hlog.
Qed.

(** X21: in quiet mode the logger ends up at WARNING level with the
    default format: the reinitialisation for quiet mode comes last and
    names no format, so a log format set in the configuration is dropped
    again, whatever the logger was before.  This holds when the
    configured log format, if there is one, is a format the logger takes;
    a format it refuses ends the run with an uncaught ValueError at the
    first reinitialisation, before quiet mode is looked at, and leaves the
    logger at DEBUG level without any handler. *)
Theorem quiet_drops_log_format (w : World) (b_conf : BanditConfig)
    (args : Namespace) (d : string) (LOG : Logger)
    (Htargets : truthy (targets args) = true)
    (Hquiet : truthy (quiet args) = true) :
  (log_format_ok w b_conf = true ->
   logger_config_after (formatter_accepts w) d (trace (run w b_conf args)) LOG
     = ([handler_for d None], WARNING)) /\
  (log_format_ok w b_conf = false ->
   outcome (run w b_conf args)
     = Raise (ValueError "Invalid format for '%' style") /\
   logger_config_after (formatter_accepts w) d (trace (run w b_conf args)) LOG
     = ([], DEBUG)).
Proof.
  split; intros Hlog.
  - destruct (run_logger_setup w b_conf args Htargets Hlog)
      as (tail & -> & Htail).
    unfold logger_config_after, logger_setup.
    rewrite !fold_left_app,
      (fold_left_reinitialise_quiet (formatter_accepts w) d tail) by done.
    rewrite Hquiet. cbn [fold_left reinitialise].
    by destruct (_init_logger_config (formatter_accepts w) d WARNING None
                   (fold_left (reinitialise (formatter_accepts w) d)
                      (if truthy (of_option_str (cfg_log_format b_conf))
                       then [InitLogger DEBUG (cfg_log_format b_conf)] else [])
                      LOG) eq_refl)
      as (_ & -> & -> & _).
  - rewrite (run_refused_format w b_conf args Htargets Hlog).
    split; [done|].
    unfold logger_config_after. cbn [trace fst fold_left reinitialise].
    apply negb_false_iff in Hlog.
    by rewrite (_init_logger_refused (formatter_accepts w) d DEBUG _ LOG Hlog).
Qed.

(** ** Virtualenv detection *)

(** X22: [_running_under_virtualenv] answers True or None, never False:
    True when [sys.real_prefix] exists or [sys.base_prefix] exists and
    differs from [sys.prefix]; None otherwise, in particular on an
    interpreter that has neither attribute. *)
Theorem virtualenv_true_or_none (sys : SysPrefixes) :
  (_running_under_virtualenv sys = PBool true \/
   _running_under_virtualenv sys = PNone) /\
  (_running_under_virtualenv sys = PBool true <->
   is_Some (real_prefix sys) \/
   exists b, base_prefix sys = Some b /\ b <> prefix sys) /\
  (real_prefix sys = None -> base_prefix sys = None ->
   _running_under_virtualenv sys = PNone).
Proof.
  unfold _running_under_virtualenv.
  destruct (real_prefix sys) as [r|] eqn:Hreal.
  - rewrite bool_decide_eq_true_2 by eauto.
    split; [by left|]. split; [|done]. split; [by left; eauto|done].
  - rewrite bool_decide_eq_false_2 by (by intros [? ?]).
    destruct (base_prefix sys) as [b|] eqn:Hbase.
    + destruct (decide (prefix sys = b)) as [Heq|Hne].
      * rewrite bool_decide_eq_true_2 by done. cbn [negb].
        split; [by right|]. split; [|done]. split; [done|].
        intros [[? ?]|(b' & [= <-] & Hb')]; [done|]. by destruct Hb'.
      * rewrite bool_decide_eq_false_2 by done. cbn [negb].
        split; [by left|]. split; [|done]. split; [|done].
        intros _. right. exists b. split; [done|]. by intros ->.
    + rewrite bool_decide_eq_true_2 by done. cbn [negb].
      split; [by right|]. split; [|done]. split; [done|].
      by intros [[? ?]|(b' & ? & _)].
Qed.

Lemma quiet_drops_log_format_witness :
  logger_config_after (formatter_accepts demo_world) "[%(module)s]"
    (trace (run demo_world demo_config_profiles demo_quiet_args))
    {| lg_handlers := []; lg_level := WARNING;
       lg_capture_warnings := false; lg_written := [] |} =
  ([{| h_stream := "stderr"; h_format := "[%(module)s]" |}], WARNING).
Proof.
  exact (proj1 (quiet_drops_log_format demo_world demo_config_profiles
                  demo_quiet_args "[%(module)s]" _ eq_refl eq_refl) eq_refl).
Defined.

(** ** Named profiles *)

Lemma update_profile_cli_ids (args : Namespace) (p : Profile) :
  str_or_none (tests args) = true -> str_or_none (skips args) = true ->
  update_profile args p =
  ([], Ret {| include := include p ∪ list_to_set (cli_ids (tests args));
              exclude := exclude p ∪ list_to_set (cli_ids (skips args)) |}).
Proof.
  intros Ht Hs. unfold update_profile, cli_ids.
  destruct (tests args) as [| | |ts| |], (skips args) as [| | |ss| |];
    try done; cbn [truthy py_split];
    repeat match goal with
           | |- context [bool_decide ?P] => destruct (bool_decide P)
           end; done.
Qed.

(** X23: with a profile name that the configuration defines, the profile
    handed on is that named profile with the command-line lists unioned
    in; the configuration's own top-level [tests] and [skips] lists play no
    part in it.  The run exits with 2 instead when the registry rejects
    the profile. *)
Theorem named_profile_ignores_config_lists (w : World) (b_conf : BanditConfig)
    (args : Namespace) (name : string) (p : Profile)
    (Hprofile : profile args = PStr name)
    (Hname : name <> "")
    (Hdefined : profiles_of b_conf !! name = Some p)
    (Htests : str_or_none (tests args) = true)
    (Hskips : str_or_none (skips args) = true) :
  let p' := {| include := include p ∪ list_to_set (cli_ids (tests args));
               exclude := exclude p ∪ list_to_set (cli_ids (skips args)) |} in
  outcome (resolve_profile w b_conf args) =
    match validate_profile w p' with None => Ret p' | Some _ => Exit 2 end /\
  include p ⊆ include p' /\ exclude p ⊆ exclude p'.
Proof.
  cbn zeta. split; [|clear; cbn [include exclude]; set_solver].
  unfold resolve_profile, profile_steps, _get_profile.
  unfold profiles_of in Hdefined.
  rewrite outcome_try_profile_errors, Hprofile, truthy_PStr, Hdefined by done.
  rewrite !outcome_bind. cbn [emit mret M_ret outcome snd].
  rewrite outcome_bind, _log_info_returns, outcome_bind.
  rewrite (update_profile_cli_ids args p Htests Hskips).
  cbn [outcome snd]. by destruct (validate_profile w _).
Qed.

Lemma named_profile_ignores_config_lists_witness :
  exists p',
    outcome (resolve_profile demo_world demo_config_profiles demo_quiet_args)
      = Ret p' /\
    include p' = {[ "B602" ]} ∪ list_to_set ["B101"] /\
    "B201" ∉ include p'.
Proof.
  pose proof (named_profile_ignores_config_lists demo_world demo_config_profiles
                demo_quiet_args "strict"
                {| include := {[ "B602" ]}; exclude := ∅ |}
                eq_refl ltac:(done) eq_refl eq_refl eq_refl) as (Hout & _).
  cbn zeta in Hout. eexists. split; [exact Hout|]. split; [reflexivity|].
  cbn [include]. vm_compute. intros H. discriminate H.
Defined.
